(** * GBCE stock exchange: a shallow embedding of [stock_factory.py] and
      [stock_market_ops.py], and the properties of their metric functions.

    Conventions of the embedding.
    - In the first reading of the code, Python numbers (dividends, par
      values, prices, quantities) are exact rationals [Q]: it settles which
      branch is taken and which expression is returned. Where rounding,
      overflow or a NaN decides a property, the trade and index functions are
      read a second time, in module [PyNum], over Python's own numbers:
      unbounded [int] and binary64 [float].
    - [datetime] values are integers: microseconds since the epoch, the
      resolution of [datetime]; [timedelta(minutes=5)] is [300000000].
    - Exceptions are the [Raise] results of [outcome]; [try]/[except] is
      [try_except].
    - [datetime.now()] and [logging] act on a [world]: the wall clock is a
      sequence of readings and the log a list of records.
    - A mutated object (a stock and its [trades] deque) is passed in and
      handed back by the operation that mutates it. *)

From Stdlib Require Import ZArith QArith List String Bool Lia Permutation.
From Stdlib Require Import Setoid Morphisms.
From Stdlib Require PrimFloat SpecFloat FloatOps DecimalString.
Import ListNotations.

Open Scope Z_scope.
Open Scope Q_scope.
Open Scope string_scope.
Open Scope list_scope.

(** ** Python values and exceptions *)

Inductive exn : Type :=
| ValueError (msg : string)
| TypeError (msg : string)
| ZeroDivisionError
| OverflowError
| AttributeError (name : string).

Inductive outcome (A : Type) : Type :=
| Ret (a : A)
| Raise (e : exn).

Arguments Ret {A} a.
Arguments Raise {A} e.

Definition obind {A B : Type} (o : outcome A) (k : A -> outcome B) : outcome B :=
  match o with
  | Ret a => k a
  | Raise e => Raise e
  end.

(** [x < y] on numbers, as a test. *)
Definition Qlt_bool (x y : Q) : bool := negb (Qle_bool y x).

(** [a / b]: true division, [ZeroDivisionError] on a zero divisor. *)
Definition py_div (a b : Q) : outcome Q :=
  if Qeq_bool b 0 then Raise ZeroDivisionError else Ret (a / b).

(** [a * b] where [a] may be [None]. *)
Definition py_mul (a : option Q) (b : Q) : outcome Q :=
  match a with
  | Some x => Ret (x * b)
  | None => Raise (TypeError "unsupported operand type(s) for *: 'NoneType'")
  end.

(** [sum(xs)]: left to right, from the integer [0]. *)
Definition py_sum (xs : list Q) : Q := fold_left Qplus xs 0.

(** [math.prod(xs)]: left to right, from the integer [1]. *)
Definition py_prod (xs : list Q) : Q := fold_left Qmult xs 1.

(** [float('inf')] next to the finite numbers. *)
Inductive pyfloat : Type :=
| Fin (q : Q)
| Inf.

(** ** The world: wall clock and log *)

Inductive level : Type := INFO | WARNING | ERROR.

(** One constructor per message of the two files; the interpolated values
    are the constructor's arguments. *)
Inductive message : Type :=
| DividendYieldFailed (symbol : string) (e : exn)
| ZeroDividend (symbol : string)
| PERatioFailed (symbol : string) (e : exn)
| TradeRecorded (symbol trade_type : string) (quantity price : Q)
| RecordTradeFailed (symbol : string) (e : exn)
| NoRecentTrades (symbol : string)
| VWSPFailed (symbol : string) (e : exn)
| StockAdded (symbol : string)
| AddStockFailed (e : exn)
| NoValidPrices
| AllShareIndexFailed (e : exn).

Definition log_record : Type := level * message.

(** [clock n] is what the [n]-th call of [datetime.now()] returns. *)
Record world : Type := World {
  clock : nat -> Z;
  tick : nat;
  log : list log_record
}.

Definition M (A : Type) : Type := world -> outcome A * world.

Definition ret {A : Type} (a : A) : M A := fun w => (Ret a, w).

Definition raise {A : Type} (e : exn) : M A := fun w => (Raise e, w).

Definition bind {A B : Type} (m : M A) (k : A -> M B) : M B :=
  fun w =>
    match m w with
    | (Ret a, w') => k a w'
    | (Raise e, w') => (Raise e, w')
    end.

Definition lift {A : Type} (o : outcome A) : M A := fun w => (o, w).

Definition try_except {A : Type} (body : M A) (handler : exn -> M A) : M A :=
  fun w =>
    match body w with
    | (Ret a, w') => (Ret a, w')
    | (Raise e, w') => handler e w'
    end.

Declare Scope py_scope.
Delimit Scope py_scope with py.
Notation "x <- m ;; k" := (bind m (fun x => k))
  (at level 100, m at next level, right associativity) : py_scope.
Notation "m ;;; k" := (bind m (fun _ => k))
  (at level 100, right associativity) : py_scope.
Open Scope py_scope.

Definition datetime_now : M Z :=
  fun w => (Ret (clock w (tick w)),
            {| clock := clock w; tick := S (tick w); log := log w |}).

Definition logging (l : level) (m : message) : M unit :=
  fun w => (Ret tt,
            {| clock := clock w; tick := tick w; log := log w ++ [(l, m)] |}).

(** [timedelta(minutes=5)] in microseconds. *)
Definition five_minutes : Z := 300000000%Z.

(** ** stock_factory.py *)

(** A trade is the tuple [(timestamp, quantity, trade_type, price)]. *)
Definition trade : Type := Z * Q * string * Q.

Inductive stock_class : Type := CommonStockClass | PreferredStockClass.

(** The attributes set by [Stock.__init__], and the concrete class. *)
Record Stock : Type := mkStock {
  class_of : stock_class;
  symbol : string;
  stock_type : string;
  last_dividend : Q;
  fixed_dividend : option Q;
  par_value : Q;
  trades : list trade
}.

(** The body of [Stock.__init__]: the attributes as given and an empty deque
    of trades. *)
Definition init (c : stock_class) (symbol stock_type : string)
    (last_dividend par_value : Q) (fixed_dividend : option Q) : Stock :=
  {| class_of := c; symbol := symbol; stock_type := stock_type;
     last_dividend := last_dividend; fixed_dividend := fixed_dividend;
     par_value := par_value; trades := [] |}.

(** The last argument of a call: passed, or left out by the caller. *)
Inductive argument (A : Type) : Type :=
| Given (a : A)
| Omitted.

Arguments Given {A} a.
Arguments Omitted {A}.

(** A parameter declared [name=None]. *)
Definition default_none {A : Type} (a : argument (option A)) : option A :=
  match a with
  | Given v => v
  | Omitted => None
  end.

Module CommonStock.

(** [CommonStock(...)]: the inherited [Stock.__init__], where
    [fixed_dividend=None]. *)
Definition new (symbol stock_type : string) (last_dividend par_value : Q)
    (fixed_dividend : argument (option Q)) : outcome Stock :=
  Ret (init CommonStockClass symbol stock_type last_dividend par_value
         (default_none fixed_dividend)).

Definition calculate_dividend_yield (self : Stock) (price : Q) : outcome Q :=
  if Qlt_bool 0 price then py_div (last_dividend self) price else Ret 0.

End CommonStock.

Module PreferredStock.

(** [PreferredStock(...)]: its own [__init__] declares [fixed_dividend]
    without a default, so a call that leaves it out is refused; a value that
    is passed, [None] included, is stored as it is. *)
Definition new (symbol stock_type : string) (last_dividend par_value : Q)
    (fixed_dividend : argument (option Q)) : outcome Stock :=
  match fixed_dividend with
  | Given v =>
      Ret (init PreferredStockClass symbol stock_type last_dividend par_value v)
  | Omitted =>
      Raise (TypeError "__init__() missing 1 required positional argument: 'fixed_dividend'")
  end.

Definition calculate_dividend_yield (self : Stock) (price : Q) : outcome Q :=
  if Qlt_bool 0 price
  then obind (py_mul (fixed_dividend self) (par_value self))
             (fun x => py_div x price)
  else Ret 0.

End PreferredStock.

(** [stock.calculate_dividend_yield(price)]: the method of the stock's class. *)
Definition method_calculate_dividend_yield (stock : Stock) (price : Q) : outcome Q :=
  match class_of stock with
  | CommonStockClass => CommonStock.calculate_dividend_yield stock price
  | PreferredStockClass => PreferredStock.calculate_dividend_yield stock price
  end.

Module StockFactory.

(** The parameter is [fixed_dividend=None]; its value is passed on to the
    class in every call. *)
Definition create_stock (symbol stock_type : string) (last_dividend par_value : Q)
    (fixed_dividend : argument (option Q)) : outcome Stock :=
  let fixed_dividend := default_none fixed_dividend in
  if String.eqb stock_type "Common" then
    CommonStock.new symbol stock_type last_dividend par_value (Given fixed_dividend)
  else if String.eqb stock_type "Preferred" then
    PreferredStock.new symbol stock_type last_dividend par_value (Given fixed_dividend)
  else Raise (ValueError "Invalid stock type").

End StockFactory.

(** ** stock_market_ops.py *)

(** What [self] is inside a method of [StockOps]: an instance of [StockOps]
    itself, whose [__init__] sets no attribute, or an object that carries the
    attributes of a stock. *)
Inductive receiver : Type :=
| StockOpsInstance
| StockObject (s : Stock).

(** [self.name] *)
Definition getattr {A : Type} (self : receiver) (name : string) (field : Stock -> A) : M A :=
  match self with
  | StockObject s => ret (field s)
  | StockOpsInstance => raise (AttributeError name)
  end.

(** [x in ["BUY", "SELL"]] *)
Definition is_buy_or_sell (trade_type : string) : bool :=
  String.eqb trade_type "BUY" || String.eqb trade_type "SELL".

(** The comprehension
    [[(qty, price) for ts, qty, _, price in stock.trades if ts >= past_five_minutes]]. *)
Definition relevant_trades (past_five_minutes : Z) (trades : list trade) : list (Q * Q) :=
  map (fun t : trade => let '(_, qty, _, price) := t in (qty, price))
      (filter (fun t : trade => let '(ts, _, _, _) := t in (past_five_minutes <=? ts)%Z) trades).

Module StockOps.

Definition calculate_dividend_yield (self : receiver) (price : Q) : M (option Q) :=
  try_except
    (if Qle_bool price 0 then raise (ValueError "Price must be greater than zero")
     else
       ty <- getattr self "stock_type" stock_type ;;
       if String.eqb ty "Common" then
         d <- getattr self "last_dividend" last_dividend ;;
         r <- lift (py_div d price) ;;
         ret (Some r)
       else
         ty' <- getattr self "stock_type" stock_type ;;
         if String.eqb ty' "Preferred" then
           fd <- getattr self "fixed_dividend" fixed_dividend ;;
           match fd with
           | Some _ =>
               f <- getattr self "fixed_dividend" fixed_dividend ;;
               p <- getattr self "par_value" par_value ;;
               x <- lift (py_mul f p) ;;
               r <- lift (py_div x price) ;;
               ret (Some r)
           | None =>
               t <- getattr self "stock_type" stock_type ;;
               raise (ValueError ("Invalid stock type: " ++ t))
           end
         else
           t <- getattr self "stock_type" stock_type ;;
           raise (ValueError ("Invalid stock type: " ++ t)))
    (fun e =>
       s <- getattr self "symbol" symbol ;;
       logging ERROR (DividendYieldFailed s e) ;;;
       ret None).

Definition calculate_pe_ratio (price : Q) (stock : Stock) : M (option pyfloat) :=
  try_except
    (if Qeq_bool (last_dividend stock) 0 then
       logging WARNING (ZeroDividend (symbol stock)) ;;;
       ret (Some Inf)
     else
       r <- lift (py_div price (last_dividend stock)) ;;
       ret (Some (Fin r)))
    (fun e =>
       logging ERROR (PERatioFailed (symbol stock) e) ;;;
       ret None).

(** [stock.trades.append(t)] *)
Definition append_trade (stock : Stock) (t : trade) : Stock :=
  {| class_of := class_of stock; symbol := symbol stock;
     stock_type := stock_type stock; last_dividend := last_dividend stock;
     fixed_dividend := fixed_dividend stock; par_value := par_value stock;
     trades := trades stock ++ [t] |}.

(** The value is the stock object after the call; the Python function itself
    returns [None] on every path that returns. *)
Definition record_trade (stock : Stock) (quantity : Q) (trade_type : string)
    (price : Q) : M Stock :=
  try_except
    (if Qle_bool quantity 0 || Qle_bool price 0 then
       raise (ValueError "Quantity and price must be greater than zero")
     else if negb (is_buy_or_sell trade_type) then
       raise (ValueError "Trade type must be BUY or SELL")
     else
       timestamp <- datetime_now ;;
       let stock' := append_trade stock (timestamp, quantity, trade_type, price) in
       logging INFO (TradeRecorded (symbol stock) trade_type quantity price) ;;;
       ret stock')
    (fun e =>
       logging ERROR (RecordTradeFailed (symbol stock) e) ;;;
       ret stock).

Definition calculate_volume_weighted_stock_price (stock : Stock) : M (option Q) :=
  try_except
    (now <- datetime_now ;;
     let past_five_minutes := (now - five_minutes)%Z in
     let relevant := relevant_trades past_five_minutes (trades stock) in
     match relevant with
     | [] =>
         logging WARNING (NoRecentTrades (symbol stock)) ;;;
         ret (Some 0)
     | _ :: _ =>
         let total_price_qty := py_sum (map (fun qp : Q * Q => fst qp * snd qp) relevant) in
         let total_qty := py_sum (map (fun qp : Q * Q => fst qp) relevant) in
         if negb (Qeq_bool total_qty 0) then
           r <- lift (py_div total_price_qty total_qty) ;;
           ret (Some r)
         else ret (Some 0)
     end)
    (fun e =>
       logging ERROR (VWSPFailed (symbol stock) e) ;;;
       ret None).

End StockOps.

(** ** The market *)

(** A Python [dict] with string keys: insertion ordered, an assignment to a
    key that is present replaces the value in place. *)
Definition dict (V : Type) : Type := list (string * V).

Fixpoint dict_get {V : Type} (d : dict V) (k : string) : option V :=
  match d with
  | [] => None
  | (k', v) :: d' => if String.eqb k' k then Some v else dict_get d' k
  end.

Fixpoint dict_set {V : Type} (d : dict V) (k : string) (v : V) : dict V :=
  match d with
  | [] => [(k, v)]
  | (k', v') :: d' =>
      if String.eqb k' k then (k', v) :: d' else (k', v') :: dict_set d' k v
  end.

Definition dict_keys {V : Type} (d : dict V) : list string := map fst d.

Definition dict_values {V : Type} (d : dict V) : list V := map snd d.

(** What a caller may hand to [add_stock]. *)
Inductive pyobj : Type :=
| AStock (s : Stock)
| NotAStock.

(** [asyncio.gather] of coroutines that do nothing before their first
    suspension: they complete one after the other, in the order given. *)
Fixpoint gather {A : Type} (tasks : list (M A)) : M (list A) :=
  match tasks with
  | [] => ret []
  | t :: ts =>
      a <- t ;;
      rest <- gather ts ;;
      ret (a :: rest)
  end.

(** The test [p and p > 0] on a result that is [None] or a number. *)
Definition valid_price (p : option Q) : bool :=
  match p with
  | None => false
  | Some q => negb (Qeq_bool q 0) && Qlt_bool 0 q
  end.

(** [[p for p in prices if p and p > 0]] *)
Fixpoint valid_prices (prices : list (option Q)) : list Q :=
  match prices with
  | [] => []
  | Some q :: ps =>
      if valid_price (Some q) then q :: valid_prices ps else valid_prices ps
  | None :: ps => valid_prices ps
  end.

Module StockMarket.

(** [self.stocks]; [self.stock_ops] has no state. *)
Record t : Type := mk { stocks : dict Stock }.

Definition init : t := {| stocks := [] |}.

(** The value is the market after the call. *)
Definition add_stock (self : t) (stock : pyobj) : M t :=
  try_except
    (match stock with
     | NotAStock => raise (TypeError "Only Stock objects can be added.")
     | AStock s =>
         let self' := {| stocks := dict_set (stocks self) (symbol s) s |} in
         logging INFO (StockAdded (symbol s)) ;;;
         ret self'
     end)
    (fun e =>
       logging ERROR (AddStockFailed e) ;;;
       ret self).

Section Index.

(** [x ** y] on floats. *)
Variable py_pow : Q -> Q -> Q.

Definition get_all_share_index (self : t) : M (option Q) :=
  try_except
    (prices <- gather (map StockOps.calculate_volume_weighted_stock_price
                           (dict_values (stocks self))) ;;
     let prices := valid_prices prices in
     match prices with
     | [] =>
         logging WARNING NoValidPrices ;;;
         ret (Some 0)
     | _ :: _ =>
         let product := py_prod prices in
         e <- lift (py_div 1 (inject_Z (Z.of_nat (List.length prices)))) ;;
         ret (Some (py_pow product e))
     end)
    (fun e =>
       logging ERROR (AllShareIndexFailed e) ;;;
       ret None).

End Index.

End StockMarket.

(** ** Sample data *)

(** Wall clock that advances one second per reading, empty log. *)
Definition w0 : world :=
  {| clock := fun n => (Z.of_nat n * 1000000)%Z; tick := 0; log := [] |}.

Definition tea : Stock := init CommonStockClass "TEA" "Common" 0 100 None.
Definition pop : Stock := init CommonStockClass "POP" "Common" 8 100 None.
Definition gin : Stock := init PreferredStockClass "GIN" "Preferred" 8 100 (Some (2 # 100)).

(** [logging] seen from outside: the same world with one more record. *)
Definition logged (w : world) (l : level) (m : message) : world :=
  {| clock := clock w; tick := tick w; log := log w ++ [(l, m)] |}.

(** ** Reading a trade, and the words of the specification *)

Definition trade_timestamp (t : trade) : Z := let '(ts, _, _, _) := t in ts.
Definition trade_quantity (t : trade) : Q := let '(_, qty, _, _) := t in qty.
Definition trade_price (t : trade) : Q := let '(_, _, _, price) := t in price.

(** The invariant of a stored trade. *)
Definition valid_trade (t : trade) : Prop :=
  0 < trade_quantity t /\ 0 < trade_price t.

(** The sum of a list of numbers, term by term from the right. *)
Definition Qsum (xs : list Q) : Q := fold_right Qplus 0 xs.

(** Sum of quantity times price over sum of quantity. *)
Definition weighted_average (sel : list trade) : Q :=
  Qsum (map (fun t => trade_quantity t * trade_price t) sel)
  / Qsum (map trade_quantity sel).

(** [timestamp >= now - 5 minutes]: the test of the code. *)
Definition since (now : Z) (t : trade) : bool :=
  (now - five_minutes <=? trade_timestamp t)%Z.

(** [timestamp] in [[now - 5 minutes, now]]: the window of the specification. *)
Definition in_window (now : Z) (t : trade) : bool :=
  (now - five_minutes <=? trade_timestamp t)%Z && (trade_timestamp t <=? now)%Z.

(** The volume weighted price in the words of the specification: select the
    trades of the window; 0 if there is none, their weighted average
    otherwise. *)
Definition specified_vwsp (now : Z) (ledger : list trade) : Q :=
  match filter (in_window now) ledger with
  | [] => 0
  | sel => weighted_average sel
  end.

(** The claim on the volume weighted price as the specification words it,
    for a stock and the world in which it is queried. *)
Definition vwsp_as_specified (s : Stock) (w : world) : Prop :=
  exists (v : Q) (w' : world),
    StockOps.calculate_volume_weighted_stock_price s w = (Ret (Some v), w')
    /\ v == specified_vwsp (clock w (tick w)) (trades s).

(** The number [calculate_volume_weighted_stock_price] computes from a ledger
    when its clock reading is [now], and the records it logs. *)
Definition vwsp_value (now : Z) (ledger : list trade) : Q :=
  let relevant := relevant_trades (now - five_minutes) ledger in
  match relevant with
  | [] => 0
  | _ :: _ =>
      let total_price_qty := py_sum (map (fun qp : Q * Q => fst qp * snd qp) relevant) in
      let total_qty := py_sum (map (fun qp : Q * Q => fst qp) relevant) in
      if negb (Qeq_bool total_qty 0) then total_price_qty / total_qty else 0
  end.

Definition vwsp_log (now : Z) (s : Stock) : list log_record :=
  match relevant_trades (now - five_minutes) (trades s) with
  | [] => [(WARNING, NoRecentTrades (symbol s))]
  | _ :: _ => []
  end.

(** The same for the stocks of a market, queried one after the other from
    the [k]-th clock reading on. *)
Fixpoint vwsp_values (c : nat -> Z) (k : nat) (ss : list Stock) : list Q :=
  match ss with
  | [] => []
  | s :: rest => vwsp_value (c k) (trades s) :: vwsp_values c (S k) rest
  end.

Fixpoint vwsp_logs (c : nat -> Z) (k : nat) (ss : list Stock) : list log_record :=
  match ss with
  | [] => []
  | s :: rest => vwsp_log (c k) s ++ vwsp_logs c (S k) rest
  end.

(** The index in the words of the specification: drop the prices that are
    not positive; 0 if none is left, otherwise the product of the [n] that
    are left, raised to [1 / n]. *)
Definition geometric_mean (pow : Q -> Q -> Q) (xs : list Q) : Q :=
  pow (py_prod xs) (1 / inject_Z (Z.of_nat (List.length xs))).

Definition index_of_prices (pow : Q -> Q -> Q) (prices : list Q) : Q :=
  match filter (Qlt_bool 0) prices with
  | [] => 0
  | kept => geometric_mean pow kept
  end.

(** ** Appending a batch of trades *)

(** What a caller passes to [record_trade]: quantity, trade type, price. *)
Definition request : Type := Q * string * Q.

Definition request_quantity (r : request) : Q := let '(q, _, _) := r in q.
Definition request_type (r : request) : string := let '(_, t, _) := r in t.
Definition request_price (r : request) : Q := let '(_, _, p) := r in p.

(** [record_trade] called once per request, in the order of the list. *)
Fixpoint record_trades (stock : Stock) (reqs : list request) : M Stock :=
  match reqs with
  | [] => ret stock
  | r :: rest =>
      stock' <- StockOps.record_trade stock (request_quantity r)
                  (request_type r) (request_price r) ;;
      record_trades stock' rest
  end.

(** The trades the requests become when stamped with the clock readings
    from the [k]-th on. *)
Fixpoint stamped (c : nat -> Z) (k : nat) (reqs : list request) : list trade :=
  match reqs with
  | [] => []
  | r :: rest =>
      (c k, request_quantity r, request_type r, request_price r)
      :: stamped c (S k) rest
  end.

(** ** More sample data *)

(** POP after the two trades of the worked example, stamped at seconds 0
    and 1, and the world after they were recorded. *)
Definition pop_traded : Stock :=
  {| class_of := CommonStockClass; symbol := "POP"; stock_type := "Common";
     last_dividend := 8; fixed_dividend := None; par_value := 100;
     trades := [(0%Z, 200, "BUY", 150); (1000000%Z, 50, "SELL", 125)] |}.

Definition w2 : world :=
  {| clock := clock w0; tick := 2; log := [] |}.

(** A wall clock that is set back: the first reading is one hour, the later
    ones are one minute. *)
Definition w_back : world :=
  {| clock := fun n => match n with
                       | O => 3600000000%Z
                       | S _ => 60000000%Z
                       end;
     tick := 0; log := [] |}.

Definition market0 : StockMarket.t :=
  {| StockMarket.stocks := [("POP", pop); ("GIN", gin)] |}.

(** A market of three stocks: A traded at 120 and B at 150 within the last
    five minutes, TEA not traded at all. *)
Definition stock_a : Stock :=
  {| class_of := CommonStockClass; symbol := "A"; stock_type := "Common";
     last_dividend := 8; fixed_dividend := None; par_value := 100;
     trades := [(0%Z, 10, "BUY", 120)] |}.

Definition stock_b : Stock :=
  {| class_of := CommonStockClass; symbol := "B"; stock_type := "Common";
     last_dividend := 23; fixed_dividend := None; par_value := 60;
     trades := [(1000000%Z, 30, "SELL", 150)] |}.

Definition market_ab : StockMarket.t :=
  {| StockMarket.stocks := [("A", stock_a); ("TEA", tea); ("B", stock_b)] |}.

(** ** Calls in sequence *)

(** The tests of [record_trade] on a request, as one boolean. *)
Definition request_ok (r : request) : bool :=
  negb (Qle_bool (request_quantity r) 0 || Qle_bool (request_price r) 0)
  && is_buy_or_sell (request_type r).

(** [add_stock] called once per object, in the order of the list, as
    [main] does for its sample stocks. *)
Fixpoint add_stocks (self : StockMarket.t) (objs : list pyobj) : M StockMarket.t :=
  match objs with
  | [] => ret self
  | o :: rest =>
      self' <- StockMarket.add_stock self o ;;
      add_stocks self' rest
  end.

(** The last stock of a list that carries the symbol [k]. *)
Fixpoint last_with_symbol (k : string) (ss : list Stock) : option Stock :=
  match ss with
  | [] => None
  | s :: rest =>
      match last_with_symbol k rest with
      | Some s' => Some s'
      | None => if String.eqb (symbol s) k then Some s else None
      end
  end.

(** POP with a trade that is older than five minutes at the third reading
    of [w0], before the two trades of the worked example. *)
Definition pop_stale : Stock :=
  {| class_of := CommonStockClass; symbol := "POP"; stock_type := "Common";
     last_dividend := 8; fixed_dividend := None; par_value := 100;
     trades := [((-400000000)%Z, 1000, "BUY", 1);
                (0%Z, 200, "BUY", 150); (1000000%Z, 50, "SELL", 125)] |}.

(** GIN as the factory makes it when the fixed dividend is left out. *)
Definition gin_bare : Stock := init PreferredStockClass "GIN" "Preferred" 8 100 None.

(** An object with the attributes of a stock and a stock type the code does
    not know. *)
Definition bond : Stock := init CommonStockClass "BND" "Bond" 5 100 None.

(** * The same code on Python's own numbers

    Where rounding or overflow decides a property, the functions are read
    again over the numbers the interpreter has: [int], exact and unbounded,
    and [float], IEEE binary64 with round to nearest even. The control flow
    is the one above; only the arithmetic differs. *)

Module PyNum.

Import PrimFloat.

Inductive num : Type :=
| Int (z : Z)
| Float (f : float).

(** The double nearest to an integer, ties to even. *)
Definition nearest (z : Z) : float :=
  FloatOps.SF2Prim (SpecFloat.binary_normalize FloatOps.prec FloatOps.emax z 0 false).

(** [float(z)], as the arithmetic operators convert an [int] operand:
    [OverflowError] when the integer is too large for a double. *)
Definition float_of_int (z : Z) : outcome float :=
  let f := nearest z in
  if is_infinity f then Raise OverflowError else Ret f.

Definition as_float (x : num) : outcome float :=
  match x with
  | Int z => float_of_int z
  | Float f => Ret f
  end.

(** [x + y] and [x * y]: exact on two ints, otherwise both operands are
    converted and the double operation rounds. *)
Definition add (x y : num) : outcome num :=
  match x, y with
  | Int a, Int b => Ret (Int (a + b))
  | _, _ =>
      obind (as_float x) (fun fx =>
      obind (as_float y) (fun fy => Ret (Float (fx + fy)%float)))
  end.

Definition mul (x y : num) : outcome num :=
  match x, y with
  | Int a, Int b => Ret (Int (a * b))
  | _, _ =>
      obind (as_float x) (fun fx =>
      obind (as_float y) (fun fy => Ret (Float (fx * fy)%float)))
  end.

(** [a / b] on two ints, [b] not zero: the double nearest to the quotient.
    When both are below 2^53 in absolute value it is the quotient of the two
    doubles; otherwise the quotient is taken with 56 bits or more and a
    sticky bit, and rounded; [OverflowError] when it is too large. *)
Definition int_true_div (a b : Z) : outcome float :=
  if (Z.abs a <? 2 ^ 53)%Z && (Z.abs b <? 2 ^ 53)%Z then
    Ret (nearest a / nearest b)%float
  else
    let k := Z.max 0 (Z.log2 (Z.abs b) + 56 - Z.log2 (Z.abs a)) in
    let (q, r) := Z.div_eucl (Z.abs a * 2 ^ k) (Z.abs b) in
    let m := (2 * q + (if (r =? 0)%Z then 0 else 1))%Z in
    let negative := xorb (a <? 0)%Z (b <? 0)%Z in
    let f := FloatOps.SF2Prim
               (SpecFloat.binary_normalize FloatOps.prec FloatOps.emax
                  (if negative then (- m)%Z else m) (- k - 1) negative) in
    if is_infinity f then Raise OverflowError else Ret f.

(** [x / y]: true division; [ZeroDivisionError] on a zero divisor. *)
Definition true_div (x y : num) : outcome num :=
  match x, y with
  | Int a, Int b =>
      if (b =? 0)%Z then Raise ZeroDivisionError
      else obind (int_true_div a b) (fun f => Ret (Float f))
  | _, _ =>
      obind (as_float x) (fun fx =>
      obind (as_float y) (fun fy =>
        if (fy =? 0)%float then Raise ZeroDivisionError
        else Ret (Float (fx / fy)%float)))
  end.

(** [x <= 0], [x > 0] and the truth value of [x]; a NaN fails every
    comparison and is true. *)
Definition le_zero (x : num) : bool :=
  match x with
  | Int z => (z <=? 0)%Z
  | Float f => (f <=? 0)%float
  end.

Definition gt_zero (x : num) : bool :=
  match x with
  | Int z => (0 <? z)%Z
  | Float f => (0 <? f)%float
  end.

Definition truthy (x : num) : bool :=
  match x with
  | Int z => negb (z =? 0)%Z
  | Float f => negb (f =? 0)%float
  end.

(** [sum(...)] over a generator: from the integer [0], each item is
    evaluated and then added, left to right, rounding after each float
    addition (the plain loop of CPython up to 3.11; later versions carry a
    compensation term for float items). *)
Fixpoint sum_from (acc : num) (items : list (outcome num)) : outcome num :=
  match items with
  | [] => Ret acc
  | i :: rest =>
      obind i (fun x => obind (add acc x) (fun acc' => sum_from acc' rest))
  end.

Definition py_sum (items : list (outcome num)) : outcome num :=
  sum_from (Int 0) items.

(** [math.prod(xs)]: from the integer [1], left to right. *)
Fixpoint prod_from (acc : num) (xs : list num) : outcome num :=
  match xs with
  | [] => Ret acc
  | x :: rest => obind (mul acc x) (fun acc' => prod_from acc' rest)
  end.

Definition py_prod (xs : list num) : outcome num := prod_from (Int 1) xs.

(** Log, clock and the monad, as above, with numbers of this kind in the
    messages. *)
Inductive message : Type :=
| TradeRecorded (symbol trade_type : string) (quantity price : num)
| RecordTradeFailed (symbol : string) (e : exn)
| NoRecentTrades (symbol : string)
| VWSPFailed (symbol : string) (e : exn)
| NoValidPrices
| AllShareIndexFailed (e : exn).

Record world : Type := World {
  clock : nat -> Z;
  tick : nat;
  log : list (level * message)
}.

Definition M (A : Type) : Type := world -> outcome A * world.

Definition ret {A : Type} (a : A) : M A := fun w => (Ret a, w).

Definition raise {A : Type} (e : exn) : M A := fun w => (Raise e, w).

Definition bind {A B : Type} (m : M A) (k : A -> M B) : M B :=
  fun w =>
    match m w with
    | (Ret a, w') => k a w'
    | (Raise e, w') => (Raise e, w')
    end.

Definition lift {A : Type} (o : outcome A) : M A := fun w => (o, w).

Definition try_except {A : Type} (body : M A) (handler : exn -> M A) : M A :=
  fun w =>
    match body w with
    | (Ret a, w') => (Ret a, w')
    | (Raise e, w') => handler e w'
    end.

Declare Scope pynum_scope.
Notation "x <- m ;; k" := (bind m (fun x => k))
  (at level 100, m at next level, right associativity) : pynum_scope.
Notation "m ;;; k" := (bind m (fun _ => k))
  (at level 100, right associativity) : pynum_scope.
Local Open Scope pynum_scope.

Definition datetime_now : M Z :=
  fun w => (Ret (clock w (tick w)),
            {| clock := clock w; tick := S (tick w); log := log w |}).

Definition logging (l : level) (m : message) : M unit :=
  fun w => (Ret tt,
            {| clock := clock w; tick := tick w; log := log w ++ [(l, m)] |}).

Definition trade : Type := Z * num * string * num.

Record Stock : Type := mkStock {
  class_of : stock_class;
  symbol : string;
  stock_type : string;
  last_dividend : num;
  fixed_dividend : option num;
  par_value : num;
  trades : list trade
}.

Definition init (c : stock_class) (symbol stock_type : string)
    (last_dividend par_value : num) (fixed_dividend : option num) : Stock :=
  {| class_of := c; symbol := symbol; stock_type := stock_type;
     last_dividend := last_dividend; fixed_dividend := fixed_dividend;
     par_value := par_value; trades := [] |}.

Definition relevant_trades (past_five_minutes : Z) (trades : list trade)
  : list (num * num) :=
  map (fun t : trade => let '(_, qty, _, price) := t in (qty, price))
      (filter (fun t : trade => let '(ts, _, _, _) := t in (past_five_minutes <=? ts)%Z)
              trades).

Module StockOps.

Definition append_trade (stock : Stock) (t : trade) : Stock :=
  {| class_of := class_of stock; symbol := symbol stock;
     stock_type := stock_type stock; last_dividend := last_dividend stock;
     fixed_dividend := fixed_dividend stock; par_value := par_value stock;
     trades := trades stock ++ [t] |}.

Definition record_trade (stock : Stock) (quantity : num) (trade_type : string)
    (price : num) : M Stock :=
  try_except
    (if le_zero quantity || le_zero price then
       raise (ValueError "Quantity and price must be greater than zero")
     else if negb (is_buy_or_sell trade_type) then
       raise (ValueError "Trade type must be BUY or SELL")
     else
       timestamp <- datetime_now ;;
       let stock' := append_trade stock (timestamp, quantity, trade_type, price) in
       logging INFO (TradeRecorded (symbol stock) trade_type quantity price) ;;;
       ret stock')
    (fun e =>
       logging ERROR (RecordTradeFailed (symbol stock) e) ;;;
       ret stock).

Definition calculate_volume_weighted_stock_price (stock : Stock) : M (option num) :=
  try_except
    (now <- datetime_now ;;
     let past_five_minutes := (now - five_minutes)%Z in
     let relevant := relevant_trades past_five_minutes (trades stock) in
     match relevant with
     | [] =>
         logging WARNING (NoRecentTrades (symbol stock)) ;;;
         ret (Some (Int 0))
     | _ :: _ =>
         total_price_qty <-
           lift (py_sum (map (fun qp : num * num => mul (fst qp) (snd qp)) relevant)) ;;
         total_qty <-
           lift (py_sum (map (fun qp : num * num => Ret (fst qp)) relevant)) ;;
         if truthy total_qty then
           r <- lift (true_div total_price_qty total_qty) ;;
           ret (Some r)
         else ret (Some (Int 0))
     end)
    (fun e =>
       logging ERROR (VWSPFailed (symbol stock) e) ;;;
       ret None).

End StockOps.

Fixpoint gather {A : Type} (tasks : list (M A)) : M (list A) :=
  match tasks with
  | [] => ret []
  | t :: ts =>
      a <- t ;;
      rest <- gather ts ;;
      ret (a :: rest)
  end.

(** [[p for p in prices if p and p > 0]] *)
Fixpoint valid_prices (prices : list (option num)) : list num :=
  match prices with
  | [] => []
  | Some p :: ps =>
      if truthy p && gt_zero p then p :: valid_prices ps else valid_prices ps
  | None :: ps => valid_prices ps
  end.

Module StockMarket.

Record t : Type := mk { stocks : dict Stock }.

Section Index.

(** [x ** y] on two doubles, [x] not negative: the power function of the C
    library. *)
Variable py_pow : float -> float -> float.

Definition power (x y : num) : outcome num :=
  obind (as_float x) (fun fx =>
  obind (as_float y) (fun fy => Ret (Float (py_pow fx fy)))).

Definition get_all_share_index (self : t) : M (option num) :=
  try_except
    (prices <- gather (map StockOps.calculate_volume_weighted_stock_price
                           (dict_values (stocks self))) ;;
     let prices := valid_prices prices in
     match prices with
     | [] =>
         logging WARNING NoValidPrices ;;;
         ret (Some (Int 0))
     | _ :: _ =>
         product <- lift (py_prod prices) ;;
         e <- lift (true_div (Int 1) (Int (Z.of_nat (List.length prices)))) ;;
         r <- lift (power product e) ;;
         ret (Some r)
     end)
    (fun e =>
       logging ERROR (AllShareIndexFailed e) ;;;
       ret None).

End Index.

End StockMarket.

(** What a caller passes to [record_trade], and calls in sequence. *)
Definition request : Type := num * string * num.

Fixpoint record_trades (stock : Stock) (reqs : list request) : M Stock :=
  match reqs with
  | [] => ret stock
  | (q, ty, p) :: rest =>
      stock' <- StockOps.record_trade stock q ty p ;;
      record_trades stock' rest
  end.

Definition record_then_query (stock : Stock) (reqs : list request) : M (option num) :=
  stock' <- record_trades stock reqs ;;
  StockOps.calculate_volume_weighted_stock_price stock'.

(** A request with an [int] quantity and an [int] price. *)
Definition of_ints (r : Z * string * Z) : request :=
  let '(q, ty, p) := r in (Int q, ty, Int p).

Definition valid_int_request (r : Z * string * Z) : Prop :=
  let '(q, ty, p) := r in (0 < q)%Z /\ (0 < p)%Z /\ is_buy_or_sell ty = true.

(** Exact sum of integers. *)
Definition Zsum (zs : list Z) : Z := fold_right Z.add 0%Z zs.

Definition int_amount (r : Z * string * Z) : Z := let '(q, _, p) := r in (q * p)%Z.
Definition int_quantity (r : Z * string * Z) : Z := let '(q, _, _) := r in q.

(** The quotient of two ints as the function returns it: the nearest
    double, and [None] when the division raised. *)
Definition int_quotient (a b : Z) : option num :=
  match int_true_div a b with
  | Ret f => Some (Float f)
  | Raise _ => None
  end.

(** The trades that int requests become when stamped with the clock
    readings from the [k]-th on. *)
Fixpoint stamped (c : nat -> Z) (k : nat) (reqs : list (Z * string * Z)) : list trade :=
  match reqs with
  | [] => []
  | (q, ty, p) :: rest => (c k, Int q, ty, Int p) :: stamped c (S k) rest
  end.

(** The next [n] clock readings of [w] all lie in the five minute window
    that ends at the reading after them. *)
Definition readings_in_window (w : world) (n : nat) : Prop :=
  forall i : nat,
    (i < n)%nat ->
    (clock w (tick w + n) - five_minutes <= clock w (tick w + i)
     /\ clock w (tick w + i) <= clock w (tick w + n))%Z.

(** What [record_trade] lets through: neither number is [<= 0] and the
    type is "BUY" or "SELL". *)
Definition passed_guard (t : trade) : Prop :=
  let '(_, q, ty, p) := t in
  le_zero q = false /\ le_zero p = false /\ is_buy_or_sell ty = true.

Definition valid_request (r : request) : Prop :=
  let '(q, ty, p) := r in
  gt_zero q = true /\ gt_zero p = true /\ is_buy_or_sell ty = true.

(** Sample data: a clock that advances one second per reading; POP; three
    trades of one share at the floats written 0.1, 0.2 and 0.3; and a
    market of 155 stocks, each with one trade of one share at 100. *)
Definition w0 : world :=
  {| clock := fun n => (Z.of_nat n * 1000000)%Z; tick := 0; log := [] |}.

Definition pop : Stock :=
  init CommonStockClass "POP" "Common" (Int 8) (Int 100) None.

Definition tenths : list request :=
  [(Int 1, "BUY", Float 0x1.999999999999ap-4);
   (Int 1, "BUY", Float 0x1.999999999999ap-3);
   (Int 1, "BUY", Float 0x1.3333333333333p-2)].

(** The doubles printed 0.20000000000000004 and 0.19999999999999998, the
    double 100.0 and the double nearest to 1/155. *)
Definition forward_price : float := 0x1.999999999999bp-3.
Definition reverse_price : float := 0x1.9999999999999p-3.
Definition hundred : float := 100.
Definition root_155 : float := 0x1.a6d01a6d01a6dp-8.

Definition listed (i : nat) : Stock :=
  {| class_of := CommonStockClass;
     symbol := "S" ++ DecimalString.NilEmpty.string_of_uint (Nat.to_uint i);
     stock_type := "Common"; last_dividend := Int 8; fixed_dividend := None;
     par_value := Int 100;
     trades := [(0%Z, Int 1, "BUY", Int 100)] |}.

Definition market_155 : StockMarket.t :=
  {| StockMarket.stocks := map (fun i => (symbol (listed i), listed i)) (seq 0 155) |}.

End PyNum.

(** ** Numbers *)

Lemma Qlt_bool_iff (x y : Q) : Qlt_bool x y = true <-> x < y.
Proof.
  unfold Qlt_bool. rewrite negb_true_iff. split; intros H.
  - apply Qnot_le_lt. intros Hle. apply Qle_bool_iff in Hle. congruence.
  - destruct (Qle_bool y x) eqn:E; [|reflexivity].
    apply Qle_bool_iff in E. exfalso. exact (Qlt_not_le _ _ H E).
Qed.

Lemma Qlt_bool_false_iff (x y : Q) : Qlt_bool x y = false <-> y <= x.
Proof.
  unfold Qlt_bool. rewrite negb_false_iff. apply Qle_bool_iff.
Qed.

Lemma Qeq_bool_false_iff (x y : Q) : Qeq_bool x y = false <-> ~ x == y.
Proof.
  split.
  - apply Qeq_bool_neq.
  - intros H. destruct (Qeq_bool x y) eqn:E; [|reflexivity].
    apply Qeq_bool_iff in E. contradiction.
Qed.

Lemma py_div_nonzero (a b : Q) : ~ b == 0 -> py_div a b = Ret (a / b).
Proof.
  intros H. unfold py_div. apply Qeq_bool_false_iff in H. now rewrite H.
Qed.

Lemma py_div_positive (a b : Q) : 0 < b -> py_div a b = Ret (a / b).
Proof.
  intros H. apply py_div_nonzero. intros E. rewrite E in H.
  exact (Qlt_irrefl _ H).
Qed.

Lemma Qle_bool_positive (x : Q) : 0 < x -> Qle_bool x 0 = false.
Proof.
  intros H. destruct (Qle_bool x 0) eqn:E; [|reflexivity].
  apply Qle_bool_iff in E. exfalso. exact (Qlt_not_le _ _ H E).
Qed.

(** ** Dividend yield *)

Lemma common_yield_positive (s : Stock) (price : Q) :
  0 < price ->
  CommonStock.calculate_dividend_yield s price = Ret (last_dividend s / price).
Proof.
  intros H. unfold CommonStock.calculate_dividend_yield.
  rewrite (proj2 (Qlt_bool_iff 0 price) H). now apply py_div_positive.
Qed.

Lemma preferred_yield_positive (s : Stock) (f price : Q) :
  0 < price -> fixed_dividend s = Some f ->
  PreferredStock.calculate_dividend_yield s price = Ret ((f * par_value s) / price).
Proof.
  intros H Hf. unfold PreferredStock.calculate_dividend_yield.
  rewrite (proj2 (Qlt_bool_iff 0 price) H), Hf. simpl.
  now apply py_div_positive.
Qed.

Lemma ops_yield_common (s : Stock) (price : Q) (w : world) :
  0 < price -> stock_type s = "Common" ->
  StockOps.calculate_dividend_yield (StockObject s) price w
  = (Ret (Some (last_dividend s / price)), w).
Proof.
  intros H Ht. unfold StockOps.calculate_dividend_yield, try_except.
  rewrite (Qle_bool_positive _ H).
  unfold bind, getattr, ret, lift. rewrite Ht. simpl.
  now rewrite (py_div_positive _ _ H).
Qed.

Lemma ops_yield_preferred (s : Stock) (f price : Q) (w : world) :
  0 < price -> stock_type s = "Preferred" -> fixed_dividend s = Some f ->
  StockOps.calculate_dividend_yield (StockObject s) price w
  = (Ret (Some ((f * par_value s) / price)), w).
Proof.
  intros H Ht Hf. unfold StockOps.calculate_dividend_yield, try_except.
  rewrite (Qle_bool_positive _ H).
  unfold bind, getattr, ret, lift. rewrite Ht, Hf. simpl.
  now rewrite (py_div_positive _ _ H).
Qed.

(** C1. For every price > 0 the dividend yield of a Common stock is
    [last_dividend / price] and that of a Preferred stock whose fixed dividend
    is present is [(fixed_dividend * par_value) / price]; this holds for the
    methods of [CommonStock] and [PreferredStock] and for
    [StockOps.calculate_dividend_yield] run on an object with the attributes
    of the stock, which then logs nothing. *)
Theorem dividend_yield_formula (s : Stock) (price : Q) (w : world) :
  0 < price ->
  (class_of s = CommonStockClass ->
   method_calculate_dividend_yield s price = Ret (last_dividend s / price)) /\
  (stock_type s = "Common" ->
   StockOps.calculate_dividend_yield (StockObject s) price w
   = (Ret (Some (last_dividend s / price)), w)) /\
  (forall f : Q, fixed_dividend s = Some f ->
     (class_of s = PreferredStockClass ->
      method_calculate_dividend_yield s price = Ret ((f * par_value s) / price)) /\
     (stock_type s = "Preferred" ->
      StockOps.calculate_dividend_yield (StockObject s) price w
      = (Ret (Some ((f * par_value s) / price)), w))).
Proof.
  intros H. repeat split.
  - intros Hc. unfold method_calculate_dividend_yield. rewrite Hc.
    now apply common_yield_positive.
  - now apply ops_yield_common.
  - intros Hc. unfold method_calculate_dividend_yield. rewrite Hc.
    now apply preferred_yield_positive.
  - intros Ht. now apply ops_yield_preferred.
Qed.

Lemma dividend_yield_formula_witness :
  0 < 100 /\
  method_calculate_dividend_yield tea 100 = Ret (0 / 100) /\
  StockOps.calculate_dividend_yield (StockObject tea) 100 w0 = (Ret (Some (0 / 100)), w0) /\
  method_calculate_dividend_yield gin 100 = Ret (((2 # 100) * 100) / 100) /\
  StockOps.calculate_dividend_yield (StockObject gin) 100 w0
  = (Ret (Some (((2 # 100) * 100) / 100)), w0).
Proof.
  assert (Hp : 0 < 100) by reflexivity.
  split; [exact Hp|].
  destruct (dividend_yield_formula tea 100 w0 Hp) as (Hc & Ho & _).
  destruct (dividend_yield_formula gin 100 w0 Hp) as (_ & _ & Hf).
  destruct (Hf (2 # 100) eq_refl) as (Hpc & Hpo).
  split; [exact (Hc eq_refl)|].
  split; [exact (Ho eq_refl)|].
  split; [exact (Hpc eq_refl) | exact (Hpo eq_refl)].
Defined.

(** X5. On an instance of [StockOps] itself, as in [StockOps().calculate_dividend_yield(price)],
    the attributes do not exist: the body raises, and so does the handler when
    it formats [self.symbol]; the caller gets [AttributeError] at any price. *)
Lemma ops_yield_on_ops_instance (price : Q) (w : world) :
  StockOps.calculate_dividend_yield StockOpsInstance price w
  = (Raise (AttributeError "symbol"), w).
Proof.
  unfold StockOps.calculate_dividend_yield, try_except.
  destruct (Qle_bool price 0); reflexivity.
Qed.

(** C4, as the code has it. For every price <= 0 the methods of
    [CommonStock] and [PreferredStock] return the number 0 (for a Preferred
    stock whether or not its fixed dividend is present), and
    [StockOps.calculate_dividend_yield] on an object with the attributes of a
    stock catches its own [ValueError], logs one error record and returns
    [None]: no exception reaches the caller. *)
Theorem dividend_yield_nonpositive_price (s : Stock) (price : Q) (w : world) :
  price <= 0 ->
  method_calculate_dividend_yield s price = Ret 0 /\
  StockOps.calculate_dividend_yield (StockObject s) price w
  = (Ret None,
     logged w ERROR
       (DividendYieldFailed (symbol s) (ValueError "Price must be greater than zero"))).
Proof.
  intros H. split.
  - unfold method_calculate_dividend_yield,
      CommonStock.calculate_dividend_yield, PreferredStock.calculate_dividend_yield.
    rewrite (proj2 (Qlt_bool_false_iff 0 price) H). now destruct (class_of s).
  - unfold StockOps.calculate_dividend_yield, try_except.
    rewrite (proj2 (Qle_bool_iff price 0) H). reflexivity.
Qed.

Lemma dividend_yield_nonpositive_price_witness :
  0 <= 0 /\
  method_calculate_dividend_yield gin 0 = Ret 0 /\
  StockOps.calculate_dividend_yield (StockObject gin) 0 w0
  = (Ret None,
     logged w0 ERROR
       (DividendYieldFailed "GIN" (ValueError "Price must be greater than zero"))).
Proof.
  assert (Hp : 0 <= 0) by apply Qle_refl.
  split; [exact Hp|]. exact (dividend_yield_nonpositive_price gin 0 w0 Hp).
Defined.

(** C4 as stated fails: at price 0 the yield of the Common stock TEA is the
    number 0, not an exception, and [StockOps.calculate_dividend_yield] hands
    back [None]. *)
Lemma dividend_yield_nonpositive_price_counterexample :
  0 <= 0 /\
  method_calculate_dividend_yield tea 0 = Ret 0 /\
  ~ (exists e : exn, method_calculate_dividend_yield tea 0 = Raise e) /\
  ~ (exists e : exn,
       fst (StockOps.calculate_dividend_yield (StockObject tea) 0 w0) = Raise e).
Proof.
  split; [apply Qle_refl|]. split; [reflexivity|].
  split; intros [e He]; vm_compute in He; discriminate He.
Qed.

(** ** P/E ratio *)

Lemma pe_ratio_zero_dividend (s : Stock) (price : Q) (w : world) :
  last_dividend s == 0 ->
  StockOps.calculate_pe_ratio price s w
  = (Ret (Some Inf), logged w WARNING (ZeroDividend (symbol s))).
Proof.
  intros H. unfold StockOps.calculate_pe_ratio, try_except.
  now rewrite (Qeq_eq_bool _ _ H).
Qed.

Lemma pe_ratio_nonzero_dividend (s : Stock) (price : Q) (w : world) :
  ~ last_dividend s == 0 ->
  StockOps.calculate_pe_ratio price s w
  = (Ret (Some (Fin (price / last_dividend s))), w).
Proof.
  intros H. unfold StockOps.calculate_pe_ratio, try_except.
  rewrite (proj2 (Qeq_bool_false_iff _ _) H).
  unfold bind, lift, ret. now rewrite (py_div_nonzero _ _ H).
Qed.

(** C5. For every price > 0, the P/E ratio of a stock whose last dividend is
    0 is the sentinel [float('inf')], returned normally (one warning is
    logged), never an exception and never [None]. *)
Theorem pe_ratio_unbounded (s : Stock) (price : Q) (w : world) :
  0 < price ->
  last_dividend s == 0 ->
  StockOps.calculate_pe_ratio price s w
  = (Ret (Some Inf), logged w WARNING (ZeroDividend (symbol s))).
Proof.
  intros _ H. now apply pe_ratio_zero_dividend.
Qed.

Lemma pe_ratio_unbounded_witness :
  0 < 100 /\ last_dividend tea == 0 /\
  StockOps.calculate_pe_ratio 100 tea w0
  = (Ret (Some Inf), logged w0 WARNING (ZeroDividend "TEA")).
Proof.
  assert (Hp : 0 < 100) by reflexivity.
  assert (Hd : last_dividend tea == 0) by reflexivity.
  split; [exact Hp|]. split; [exact Hd|].
  exact (pe_ratio_unbounded tea 100 w0 Hp Hd).
Defined.

(** C6, as the code has it. [calculate_pe_ratio] does not test the price:
    for every price <= 0 it returns normally, the sentinel when the last
    dividend is 0 and the number [price / last_dividend] otherwise. *)
Theorem pe_ratio_nonpositive_price (s : Stock) (price : Q) (w : world) :
  price <= 0 ->
  (last_dividend s == 0 ->
   StockOps.calculate_pe_ratio price s w
   = (Ret (Some Inf), logged w WARNING (ZeroDividend (symbol s)))) /\
  (~ last_dividend s == 0 ->
   StockOps.calculate_pe_ratio price s w
   = (Ret (Some (Fin (price / last_dividend s))), w)).
Proof.
  intros _. split.
  - apply pe_ratio_zero_dividend.
  - apply pe_ratio_nonzero_dividend.
Qed.

Lemma pe_ratio_nonpositive_price_witness :
  -(4) <= 0 /\
  StockOps.calculate_pe_ratio (-(4)) tea w0
  = (Ret (Some Inf), logged w0 WARNING (ZeroDividend "TEA")) /\
  StockOps.calculate_pe_ratio (-(4)) pop w0 = (Ret (Some (Fin (-(4) / 8))), w0).
Proof.
  assert (Hp : -(4) <= 0) by (intro H; discriminate H).
  split; [exact Hp|]. split.
  - refine (proj1 (pe_ratio_nonpositive_price tea (-(4)) w0 Hp) _). reflexivity.
  - refine (proj2 (pe_ratio_nonpositive_price pop (-(4)) w0 Hp) _).
    intro H; discriminate H.
Defined.

(** C6 as stated fails: at price -4 the P/E ratio of POP (last dividend 8)
    is the number -4/8, neither an exception nor [None]. *)
Lemma pe_ratio_nonpositive_price_counterexample :
  -(4) <= 0 /\
  fst (StockOps.calculate_pe_ratio (-(4)) pop w0) = Ret (Some (Fin (-(4) / 8))) /\
  ~ (exists e : exn, fst (StockOps.calculate_pe_ratio (-(4)) pop w0) = Raise e) /\
  fst (StockOps.calculate_pe_ratio (-(4)) pop w0) <> Ret None.
Proof.
  split; [intro H; discriminate H|]. split; [reflexivity|].
  split; [intros [e He]|intros He]; vm_compute in He; discriminate He.
Qed.

(** ** Construction *)

(** The sample stocks are the ones the factory makes in [main]. *)
Lemma sample_stocks_from_factory :
  StockFactory.create_stock "TEA" "Common" 0 100 Omitted = Ret tea
  /\ StockFactory.create_stock "POP" "Common" 8 100 Omitted = Ret pop
  /\ StockFactory.create_stock "GIN" "Preferred" 8 100 (Given (Some (2 # 100))) = Ret gin.
Proof.
  repeat split.
Qed.

(** C8, as the code has it. [create_stock] with stock type "Preferred" and
    the fixed dividend left out (or passed as [None]) raises nothing: it
    returns a stock of class [PreferredStock] whose [fixed_dividend] is
    [None]. Only the class called directly without the argument refuses the
    call, with the [TypeError] of a missing argument. *)
Theorem create_preferred_without_fixed_dividend (sym : string) (ld pv : Q) :
  StockFactory.create_stock sym "Preferred" ld pv Omitted
  = Ret (init PreferredStockClass sym "Preferred" ld pv None)
  /\ StockFactory.create_stock sym "Preferred" ld pv (Given None)
     = Ret (init PreferredStockClass sym "Preferred" ld pv None)
  /\ exists msg : string,
       PreferredStock.new sym "Preferred" ld pv Omitted = Raise (TypeError msg).
Proof.
  split; [reflexivity|]. split; [reflexivity|]. eexists. reflexivity.
Qed.

(** C8 as stated fails: GIN without a fixed dividend is constructed. *)
Lemma create_preferred_without_fixed_dividend_counterexample :
  ~ (exists e : exn, StockFactory.create_stock "GIN" "Preferred" 8 100 Omitted = Raise e).
Proof.
  intros [e He]. vm_compute in He. discriminate He.
Qed.

(** What becomes of such a stock: at a positive price the method of
    [PreferredStock] raises [TypeError], and [StockOps.calculate_dividend_yield]
    logs its "Invalid stock type" error and returns [None]. *)
Lemma preferred_without_fixed_dividend_yield (s : Stock) (price : Q) (w : world) :
  0 < price -> fixed_dividend s = None ->
  (exists msg, PreferredStock.calculate_dividend_yield s price = Raise (TypeError msg)) /\
  (stock_type s = "Preferred" ->
   StockOps.calculate_dividend_yield (StockObject s) price w
   = (Ret None,
      logged w ERROR
        (DividendYieldFailed (symbol s) (ValueError "Invalid stock type: Preferred")))).
Proof.
  intros H Hf. split.
  - unfold PreferredStock.calculate_dividend_yield.
    rewrite (proj2 (Qlt_bool_iff 0 price) H), Hf. simpl. eauto.
  - intros Ht. unfold StockOps.calculate_dividend_yield, try_except.
    rewrite (Qle_bool_positive _ H).
    unfold bind, getattr, ret, lift, raise. rewrite Ht, Hf. reflexivity.
Qed.

(** ** Recording a trade *)

Lemma record_trade_rejects (s : Stock) (quantity : Q) (trade_type : string)
    (price : Q) (w : world) :
  quantity <= 0 \/ price <= 0 \/ is_buy_or_sell trade_type = false ->
  exists msg : string,
    StockOps.record_trade s quantity trade_type price w
    = (Ret s, logged w ERROR (RecordTradeFailed (symbol s) (ValueError msg))).
Proof.
  intros H. unfold StockOps.record_trade, try_except.
  destruct (Qle_bool quantity 0 || Qle_bool price 0) eqn:E.
  - eexists. reflexivity.
  - destruct (is_buy_or_sell trade_type) eqn:Eb.
    + exfalso. apply orb_false_iff in E. destruct E as [Eq Ep].
      destruct H as [H | [H | H]].
      * apply Qle_bool_iff in H. congruence.
      * apply Qle_bool_iff in H. congruence.
      * discriminate H.
    + eexists. reflexivity.
Qed.

Lemma record_trade_accepts (s : Stock) (quantity : Q) (trade_type : string)
    (price : Q) (w : world) :
  0 < quantity -> 0 < price -> is_buy_or_sell trade_type = true ->
  StockOps.record_trade s quantity trade_type price w
  = (Ret (StockOps.append_trade s (clock w (tick w), quantity, trade_type, price)),
     {| clock := clock w; tick := S (tick w);
        log := log w ++ [(INFO, TradeRecorded (symbol s) trade_type quantity price)] |}).
Proof.
  intros Hq Hp Ht. unfold StockOps.record_trade, try_except.
  rewrite (Qle_bool_positive _ Hq), (Qle_bool_positive _ Hp), Ht. reflexivity.
Qed.

Lemma is_buy_or_sell_false (trade_type : string) :
  is_buy_or_sell trade_type = false <-> trade_type <> "BUY" /\ trade_type <> "SELL".
Proof.
  unfold is_buy_or_sell. rewrite orb_false_iff, !String.eqb_neq. tauto.
Qed.

(** C7, as the code has it. [record_trade] with quantity <= 0, price <= 0 or
    a trade type other than "BUY" and "SELL" leaves the stock and its ledger
    as they were, reads no clock, logs one error record carrying the
    [ValueError], and returns normally as a successful call does: no
    exception reaches the caller. *)
Theorem record_trade_invalid (s : Stock) (quantity : Q) (trade_type : string)
    (price : Q) (w : world) :
  quantity <= 0 \/ price <= 0 \/ (trade_type <> "BUY" /\ trade_type <> "SELL") ->
  exists (msg : string) (s' : Stock),
    StockOps.record_trade s quantity trade_type price w
    = (Ret s', logged w ERROR (RecordTradeFailed (symbol s) (ValueError msg))) /\
    s' = s /\
    List.length (trades s') = List.length (trades s).
Proof.
  intros H.
  destruct (record_trade_rejects s quantity trade_type price w) as [msg Hr].
  - rewrite is_buy_or_sell_false. exact H.
  - exists msg, s. now rewrite Hr.
Qed.

Lemma record_trade_invalid_witness :
  (0 <= 0 \/ 10 <= 0 \/ ("BUY" <> "BUY" /\ "BUY" <> "SELL")) /\
  exists (msg : string) (s' : Stock),
    StockOps.record_trade pop 0 "BUY" 10 w0
    = (Ret s', logged w0 ERROR (RecordTradeFailed "POP" (ValueError msg))) /\
    s' = pop /\
    List.length (trades s') = List.length (trades pop).
Proof.
  assert (H : 0 <= 0 \/ 10 <= 0 \/ ("BUY" <> "BUY" /\ "BUY" <> "SELL"))
    by (left; apply Qle_refl).
  split; [exact H|].
  exact (record_trade_invalid pop 0 "BUY" 10 w0 H).
Defined.

(** C7 as stated fails: the rejected trade (quantity 0, "BUY", price 10)
    raises nothing; the call returns as a successful one does. *)
Lemma record_trade_invalid_counterexample :
  ~ (exists e : exn, fst (StockOps.record_trade pop 0 "BUY" 10 w0) = Raise e) /\
  fst (StockOps.record_trade pop 0 "BUY" 10 w0) = Ret pop.
Proof.
  split; [intros [e He]; vm_compute in He; discriminate He | reflexivity].
Qed.

(** ** The dictionary of stocks *)

Section Dict.

Context {V : Type}.

Lemma dict_get_set_same (d : dict V) (k : string) (v : V) :
  dict_get (dict_set d k v) k = Some v.
Proof.
  induction d as [|[k' v'] d IH]; simpl.
  - now rewrite String.eqb_refl.
  - destruct (String.eqb k' k) eqn:E; simpl; rewrite E; [reflexivity | exact IH].
Qed.

Lemma dict_get_set_other (d : dict V) (k k0 : string) (v : V) :
  k0 <> k -> dict_get (dict_set d k v) k0 = dict_get d k0.
Proof.
  intros Hne. induction d as [|[k' v'] d IH]; simpl.
  - destruct (String.eqb k k0) eqn:E; [|reflexivity].
    apply String.eqb_eq in E. congruence.
  - destruct (String.eqb k' k) eqn:E; simpl.
    + apply String.eqb_eq in E. subst k'.
      destruct (String.eqb k k0) eqn:E0; [|reflexivity].
      apply String.eqb_eq in E0. congruence.
    + now rewrite IH.
Qed.

Lemma dict_get_some_in (d : dict V) (k : string) (v : V) :
  dict_get d k = Some v -> In k (dict_keys d).
Proof.
  induction d as [|[k' v'] d IH]; simpl; [discriminate|].
  destruct (String.eqb k' k) eqn:E.
  - apply String.eqb_eq in E. now left.
  - intros H. right. now apply IH.
Qed.

Lemma dict_get_none_not_in (d : dict V) (k : string) :
  dict_get d k = None -> ~ In k (dict_keys d).
Proof.
  induction d as [|[k' v'] d IH]; simpl; [tauto|].
  destruct (String.eqb k' k) eqn:E; [discriminate|].
  apply String.eqb_neq in E. intros H [H1 | H1]; [congruence | now apply IH].
Qed.

(** A key that is present keeps its place: the keys do not change. *)
Lemma dict_set_keys_present (d : dict V) (k : string) (v old : V) :
  dict_get d k = Some old -> dict_keys (dict_set d k v) = dict_keys d.
Proof.
  induction d as [|[k' v'] d IH]; simpl; [discriminate|].
  destruct (String.eqb k' k) eqn:E; simpl; [reflexivity|].
  intros H. f_equal. now apply IH.
Qed.

(** A new key goes to the end. *)
Lemma dict_set_keys_absent (d : dict V) (k : string) (v : V) :
  dict_get d k = None -> dict_keys (dict_set d k v) = dict_keys d ++ [k].
Proof.
  induction d as [|[k' v'] d IH]; simpl; [reflexivity|].
  destruct (String.eqb k' k) eqn:E; simpl; [discriminate|].
  intros H. f_equal. now apply IH.
Qed.

Lemma dict_set_NoDup (d : dict V) (k : string) (v : V) :
  NoDup (dict_keys d) -> NoDup (dict_keys (dict_set d k v)).
Proof.
  intros Hnd. destruct (dict_get d k) as [old|] eqn:E.
  - now rewrite (dict_set_keys_present d k v old E).
  - rewrite (dict_set_keys_absent d k v E).
    apply NoDup_app; [exact Hnd | repeat constructor; simpl; tauto |].
    intros x Hx [Hk | []]. subst x.
    exact (dict_get_none_not_in d k E Hx).
Qed.

End Dict.

(** The keys of a market stay pairwise distinct under [add_stock], whatever
    is added; they are so in the empty market [StockMarket.init]. *)
Lemma add_stock_keeps_keys_distinct (m : StockMarket.t) (o : pyobj) (w : world) :
  NoDup (dict_keys (StockMarket.stocks m)) ->
  exists (m' : StockMarket.t) (w' : world),
    StockMarket.add_stock m o w = (Ret m', w')
    /\ NoDup (dict_keys (StockMarket.stocks m')).
Proof.
  intros Hnd. destruct o as [s|].
  - eexists. eexists. split; [reflexivity|]. simpl. now apply dict_set_NoDup.
  - eexists. eexists. split; [reflexivity|]. exact Hnd.
Qed.

(** C10. Adding a stock whose symbol is already a key of the market returns
    normally and logs exactly one record, of level INFO (no error, no
    warning); afterwards the symbol maps to the new stock, ledger included,
    the keys of the market are the ones it had, each still occurring once,
    and every other symbol maps to what it mapped to before. *)
Theorem add_stock_replaces_duplicate (m : StockMarket.t) (s old : Stock)
    (w : world) :
  NoDup (dict_keys (StockMarket.stocks m)) ->
  dict_get (StockMarket.stocks m) (symbol s) = Some old ->
  exists m' : StockMarket.t,
    StockMarket.add_stock m (AStock s) w
    = (Ret m', logged w INFO (StockAdded (symbol s))) /\
    dict_get (StockMarket.stocks m') (symbol s) = Some s /\
    dict_keys (StockMarket.stocks m') = dict_keys (StockMarket.stocks m) /\
    NoDup (dict_keys (StockMarket.stocks m')) /\
    count_occ string_dec (dict_keys (StockMarket.stocks m')) (symbol s) = 1%nat /\
    (forall k : string,
       k <> symbol s ->
       dict_get (StockMarket.stocks m') k = dict_get (StockMarket.stocks m) k).
Proof.
  intros Hnd Hold.
  exists {| StockMarket.stocks := dict_set (StockMarket.stocks m) (symbol s) s |}.
  simpl. split; [reflexivity|].
  split; [apply dict_get_set_same|].
  split; [now apply dict_set_keys_present with (old := old)|].
  split; [now apply dict_set_NoDup|].
  split.
  - apply NoDup_count_occ'; [now apply dict_set_NoDup|].
    apply dict_get_some_in with (v := s). apply dict_get_set_same.
  - intros k Hk. now apply dict_get_set_other.
Qed.

Lemma add_stock_replaces_duplicate_witness :
  NoDup (dict_keys (StockMarket.stocks market0)) /\
  dict_get (StockMarket.stocks market0) (symbol pop_traded) = Some pop /\
  exists m' : StockMarket.t,
    StockMarket.add_stock market0 (AStock pop_traded) w0
    = (Ret m', logged w0 INFO (StockAdded "POP")) /\
    dict_get (StockMarket.stocks m') "POP" = Some pop_traded /\
    dict_get (StockMarket.stocks m') "GIN" = Some gin.
Proof.
  assert (Hnd : NoDup (dict_keys (StockMarket.stocks market0))).
  { simpl. constructor.
    - simpl. intros [H | []]. discriminate H.
    - constructor; [simpl; tauto | constructor]. }
  assert (Hold : dict_get (StockMarket.stocks market0) (symbol pop_traded) = Some pop)
    by reflexivity.
  split; [exact Hnd|]. split; [exact Hold|].
  destruct (add_stock_replaces_duplicate market0 pop_traded pop w0 Hnd Hold)
    as (m' & Hrun & Hnew & _ & _ & _ & Hother).
  exists m'. split; [exact Hrun|]. split; [exact Hnew|].
  rewrite (Hother "GIN"); [reflexivity | intro H; discriminate H].
Defined.

(** ** Sums *)

Lemma fold_left_Qplus (xs : list Q) (a : Q) :
  fold_left Qplus xs a == a + Qsum xs.
Proof.
  revert a. induction xs as [|x xs IH]; intros a; simpl.
  - ring.
  - rewrite IH. ring.
Qed.

Lemma py_sum_Qsum (xs : list Q) : py_sum xs == Qsum xs.
Proof.
  unfold py_sum. rewrite fold_left_Qplus. ring.
Qed.

Lemma Qsum_nonneg (xs : list Q) : Forall (fun x => 0 < x) xs -> 0 <= Qsum xs.
Proof.
  induction 1 as [|x xs Hx _ IH]; simpl.
  - apply Qle_refl.
  - rewrite <- (Qplus_0_l 0). apply Qplus_le_compat; [now apply Qlt_le_weak | exact IH].
Qed.

Lemma Qsum_positive (xs : list Q) :
  xs <> [] -> Forall (fun x => 0 < x) xs -> 0 < Qsum xs.
Proof.
  intros Hne Hall. destruct Hall as [|x xs Hx Hxs]; [congruence|]. simpl.
  rewrite <- (Qplus_0_l 0). apply Qplus_lt_le_compat; [exact Hx | now apply Qsum_nonneg].
Qed.

(** ** Volume weighted stock price *)

Lemma relevant_trades_since (now : Z) (ledger : list trade) :
  relevant_trades (now - five_minutes) ledger
  = map (fun t => (trade_quantity t, trade_price t)) (filter (since now) ledger).
Proof.
  unfold relevant_trades, since.
  induction ledger as [|[[[ts q] ty] p] l IH]; simpl; [reflexivity|].
  destruct (now - five_minutes <=? ts)%Z; simpl; now rewrite IH.
Qed.

(** The function never raises: it reads the clock once and returns the
    number [vwsp_value]. *)
Lemma vwsp_run (s : Stock) (w : world) :
  StockOps.calculate_volume_weighted_stock_price s w
  = (Ret (Some (vwsp_value (clock w (tick w)) (trades s))),
     {| clock := clock w; tick := S (tick w);
        log := log w ++ vwsp_log (clock w (tick w)) s |}).
Proof.
  unfold StockOps.calculate_volume_weighted_stock_price, try_except, bind,
    datetime_now, vwsp_value, vwsp_log. simpl.
  destruct (relevant_trades (clock w (tick w) - five_minutes) (trades s))
    as [|qp rel] eqn:E.
  - reflexivity.
  - set (tq := py_sum (map (fun qp0 : Q * Q => fst qp0) (qp :: rel))).
    destruct (Qeq_bool tq 0) eqn:Ez; simpl.
    + unfold ret. now rewrite app_nil_r.
    + unfold lift, ret, py_div. rewrite Ez. now rewrite app_nil_r.
Qed.

Lemma map_map_fst_quantity (sel : list trade) :
  map (fun qp : Q * Q => fst qp) (map (fun t => (trade_quantity t, trade_price t)) sel)
  = map trade_quantity sel.
Proof.
  rewrite map_map. reflexivity.
Qed.

Lemma map_map_quantity_price (sel : list trade) :
  map (fun qp : Q * Q => fst qp * snd qp)
      (map (fun t => (trade_quantity t, trade_price t)) sel)
  = map (fun t => trade_quantity t * trade_price t) sel.
Proof.
  rewrite map_map. reflexivity.
Qed.

(** On a ledger of valid trades the number is 0 when nothing is selected
    and the weighted average of the selection otherwise. *)
Lemma vwsp_value_selection (now : Z) (ledger : list trade) :
  Forall valid_trade ledger ->
  (filter (since now) ledger = [] -> vwsp_value now ledger = 0) /\
  (filter (since now) ledger <> [] ->
   vwsp_value now ledger == weighted_average (filter (since now) ledger)).
Proof.
  intros Hv. unfold vwsp_value. rewrite relevant_trades_since.
  set (sel := filter (since now) ledger).
  assert (Hsel : Forall valid_trade sel).
  { apply Forall_forall. intros t Ht. apply filter_In in Ht.
    exact (proj1 (Forall_forall _ _) Hv t (proj1 Ht)). }
  split.
  - intros E. now rewrite E.
  - intros Hne. destruct sel as [|t sel'] eqn:E; [congruence|].
    rewrite <- E in *. cbv zeta.
    replace (map (fun t0 => (trade_quantity t0, trade_price t0)) (t :: sel'))
      with (map (fun t0 => (trade_quantity t0, trade_price t0)) sel)
      by now rewrite E.
    assert (Hmatch : forall (A : Type) (a b : A),
              match map (fun t0 => (trade_quantity t0, trade_price t0)) sel with
              | [] => a | _ :: _ => b end = b).
    { intros A a b. now rewrite E. }
    rewrite Hmatch. rewrite map_map_fst_quantity, map_map_quantity_price.
    assert (Hpos : 0 < Qsum (map trade_quantity sel)).
    { apply Qsum_positive.
      - rewrite E. discriminate.
      - apply Forall_map. eapply Forall_impl; [|exact Hsel].
        intros a Ha. exact (proj1 Ha). }
    assert (Hnz : Qeq_bool (py_sum (map trade_quantity sel)) 0 = false).
    { apply Qeq_bool_false_iff. rewrite py_sum_Qsum. intros Hz.
      rewrite Hz in Hpos. exact (Qlt_irrefl _ Hpos). }
    rewrite Hnz. simpl. unfold weighted_average.
    now rewrite !py_sum_Qsum.
Qed.

Lemma since_in_window (now : Z) (ledger : list trade) :
  Forall (fun t => (trade_timestamp t <= now)%Z) ledger ->
  filter (since now) ledger = filter (in_window now) ledger.
Proof.
  intros H. apply filter_ext_in. intros t Ht.
  unfold since, in_window.
  rewrite (proj2 (Z.leb_le _ _) (proj1 (Forall_forall _ _) H t Ht)).
  now rewrite andb_true_r.
Qed.

(** C2, as the code has it. With [now] the clock reading of the call, the
    function selects exactly the trades whose timestamp is at least
    [now - 5 minutes] (the bound itself included, anything earlier left out);
    it tests no upper bound, so the selection is the window
    [[now - 5 minutes, now]] when no stored timestamp is later than [now].
    On a ledger of valid trades: if the selection is empty the result is 0,
    returned normally with one warning logged; otherwise it is the sum of
    quantity times price over the sum of quantity of the selection. *)
Theorem vwsp_selection_and_value (s : Stock) (w : world) :
  Forall valid_trade (trades s) ->
  let now := clock w (tick w) in
  let sel := filter (since now) (trades s) in
  (forall t : trade,
     In t sel <-> In t (trades s) /\ (now - five_minutes <= trade_timestamp t)%Z) /\
  (Forall (fun t => (trade_timestamp t <= now)%Z) (trades s) ->
   sel = filter (in_window now) (trades s)) /\
  (sel = [] ->
   StockOps.calculate_volume_weighted_stock_price s w
   = (Ret (Some 0),
      {| clock := clock w; tick := S (tick w);
         log := log w ++ [(WARNING, NoRecentTrades (symbol s))] |})) /\
  (sel <> [] ->
   exists v : Q,
     StockOps.calculate_volume_weighted_stock_price s w
     = (Ret (Some v), {| clock := clock w; tick := S (tick w); log := log w |})
     /\ v == weighted_average sel).
Proof.
  intros Hv now sel.
  destruct (vwsp_value_selection now (trades s) Hv) as [Hempty Hsome].
  split; [|split; [|split]].
  - intros t. unfold sel. rewrite filter_In. unfold since.
    now rewrite Z.leb_le.
  - apply since_in_window.
  - intros E. rewrite vwsp_run. fold now. rewrite (Hempty E).
    unfold vwsp_log. rewrite relevant_trades_since. fold now. fold sel.
    now rewrite E.
  - intros Hne. exists (vwsp_value now (trades s)). split; [|now apply Hsome].
    rewrite vwsp_run. fold now.
    unfold vwsp_log. rewrite relevant_trades_since. fold now. fold sel.
    destruct sel; [congruence|]. simpl. now rewrite app_nil_r.
Qed.

Lemma vwsp_selection_and_value_witness :
  Forall valid_trade (trades pop_traded) /\
  exists v : Q,
    StockOps.calculate_volume_weighted_stock_price pop_traded w2
    = (Ret (Some v), {| clock := clock w2; tick := 3; log := [] |})
    /\ v == 145.
Proof.
  assert (Hv : Forall valid_trade (trades pop_traded)).
  { repeat constructor. }
  split; [exact Hv|].
  destruct (vwsp_selection_and_value pop_traded w2 Hv) as (_ & _ & _ & Hsome).
  destruct Hsome as (v & Hrun & Hval); [discriminate|].
  exists v. split; [exact Hrun|].
  rewrite Hval. reflexivity.
Defined.

(** C2 as stated fails. POP records one valid trade when the clock reads one
    hour; the clock is then set back and reads one minute at the query. The
    trade lies after the window of the specification, which therefore gives
    0, but the code selects it and returns its price, 5. *)
Lemma vwsp_window_counterexample :
  exists (s' : Stock) (w' : world),
    StockOps.record_trade pop 10 "BUY" 5 w_back = (Ret s', w')
    /\ Forall valid_trade (trades s')
    /\ fst (StockOps.calculate_volume_weighted_stock_price s' w') = Ret (Some (50 / 10))
    /\ specified_vwsp (clock w' (tick w')) (trades s') = 0
    /\ ~ vwsp_as_specified s' w'.
Proof.
  eexists. eexists. split; [reflexivity|].
  split; [repeat constructor|].
  split; [reflexivity|]. split; [reflexivity|].
  intros (v & w'' & Hrun & Hv).
  rewrite vwsp_run in Hrun. injection Hrun as Hval _. subst v.
  vm_compute in Hv. discriminate Hv.
Qed.

(** ** All share index *)

Lemma gather_vwsp_run (ss : list Stock) :
  forall w : world,
    gather (map StockOps.calculate_volume_weighted_stock_price ss) w
    = (Ret (map Some (vwsp_values (clock w) (tick w) ss)),
       {| clock := clock w; tick := tick w + List.length ss;
          log := log w ++ vwsp_logs (clock w) (tick w) ss |}).
Proof.
  induction ss as [|s rest IH]; intros w; simpl.
  - unfold ret. rewrite Nat.add_0_r, app_nil_r. now destruct w.
  - unfold bind at 1. rewrite vwsp_run.
    unfold bind at 1. rewrite IH. unfold ret. cbn [clock tick log].
    now rewrite Nat.add_succ_r, <- app_assoc.
Qed.

Lemma valid_price_positive (q : Q) : valid_price (Some q) = Qlt_bool 0 q.
Proof.
  unfold valid_price. destruct (Qlt_bool 0 q) eqn:E.
  - apply Qlt_bool_iff in E. rewrite andb_true_r. apply negb_true_iff.
    apply Qeq_bool_false_iff. intros Hz. rewrite Hz in E.
    exact (Qlt_irrefl _ E).
  - apply andb_false_r.
Qed.

(** The prices kept are exactly the positive ones. *)
Lemma valid_prices_positive (qs : list Q) :
  valid_prices (map Some qs) = filter (Qlt_bool 0) qs.
Proof.
  induction qs as [|q qs IH]; [reflexivity|].
  cbn [map valid_prices filter].
  rewrite valid_price_positive, IH. reflexivity.
Qed.

Lemma length_nonzero (A : Type) (x : A) (xs : list A) (a : Q) :
  py_div a (inject_Z (Z.of_nat (List.length (x :: xs))))
  = Ret (a / inject_Z (Z.of_nat (List.length (x :: xs)))).
Proof.
  apply py_div_positive. unfold Qlt. simpl. lia.
Qed.

(** The worked example: with A at 120, B at 150 and a stock without trades,
    the index is the product 120 * 150 raised to 1/2. *)
Example all_share_index_example (pow : Q -> Q -> Q) :
  exists product exponent : Q,
    fst (StockMarket.get_all_share_index pow market_ab w2)
    = Ret (Some (pow product exponent))
    /\ product == 120 * 150 /\ exponent == 1 # 2.
Proof.
  eexists. eexists. split; [reflexivity|]. split; reflexivity.
Qed.

(** A market where no stock has a trade: the index is 0. *)
Example all_share_index_no_trades (pow : Q -> Q -> Q) :
  fst (StockMarket.get_all_share_index pow market0 w0) = Ret (Some 0).
Proof.
  reflexivity.
Qed.

(** * Further properties of the code *)

(** ** The factory *)

(** X1. [create_stock] raises exactly when the stock type is neither
    "Common" nor "Preferred", and what it raises then is the [ValueError]
    "Invalid stock type"; the other arguments play no part. *)
Theorem create_stock_raises_iff (sym ty : string) (ld pv : Q)
    (fd : argument (option Q)) :
  ((exists e : exn, StockFactory.create_stock sym ty ld pv fd = Raise e)
   <-> ty <> "Common" /\ ty <> "Preferred")
  /\ (forall e : exn,
        StockFactory.create_stock sym ty ld pv fd = Raise e ->
        e = ValueError "Invalid stock type").
Proof.
  unfold StockFactory.create_stock, CommonStock.new, PreferredStock.new.
  destruct (String.eqb ty "Common") eqn:Ec.
  - apply String.eqb_eq in Ec. split.
    + split; [intros [e He]; discriminate He | intros [H _]; contradiction].
    + intros e He. discriminate He.
  - destruct (String.eqb ty "Preferred") eqn:Ep.
    + apply String.eqb_eq in Ep. split.
      * split; [intros [e He]; discriminate He | intros [_ H]; contradiction].
      * intros e He. discriminate He.
    + apply String.eqb_neq in Ec, Ep. split.
      * split; [tauto | intros _; eexists; reflexivity].
      * intros e He. now injection He as <-.
Qed.

(** X2. A stock that [create_stock] returns carries the arguments as its
    attributes, [None] as fixed dividend when none was passed, an empty
    ledger, and the class that its stock type names. *)
Theorem create_stock_attributes (sym ty : string) (ld pv : Q)
    (fd : argument (option Q)) (s : Stock) :
  StockFactory.create_stock sym ty ld pv fd = Ret s ->
  symbol s = sym /\ stock_type s = ty /\ last_dividend s = ld
  /\ par_value s = pv /\ fixed_dividend s = default_none fd
  /\ trades s = []
  /\ (class_of s = CommonStockClass <-> ty = "Common")
  /\ (class_of s = PreferredStockClass <-> ty = "Preferred").
Proof.
  unfold StockFactory.create_stock, CommonStock.new, PreferredStock.new.
  destruct (String.eqb ty "Common") eqn:Ec.
  - apply String.eqb_eq in Ec. intros H. injection H as <-. simpl.
    repeat split; try tauto; try discriminate.
    intros Hp. rewrite Ec in Hp. discriminate Hp.
  - destruct (String.eqb ty "Preferred") eqn:Ep; [|discriminate].
    apply String.eqb_eq in Ep. apply String.eqb_neq in Ec.
    intros H. injection H as <-. simpl.
    repeat split; try tauto; try discriminate.
Qed.

Lemma create_stock_attributes_witness :
  StockFactory.create_stock "GIN" "Preferred" 8 100 (Given (Some (2 # 100))) = Ret gin
  /\ symbol gin = "GIN" /\ fixed_dividend gin = Some (2 # 100)
  /\ trades gin = [].
Proof.
  assert (H : StockFactory.create_stock "GIN" "Preferred" 8 100 (Given (Some (2 # 100)))
              = Ret gin) by reflexivity.
  split; [exact H|].
  destruct (create_stock_attributes _ _ _ _ _ _ H) as (Hs & _ & _ & _ & Hf & Ht & _).
  split; [exact Hs|]. split; [exact Hf | exact Ht].
Defined.

(** ** Dividend yield *)

(** X4. At a positive price, [StockOps.calculate_dividend_yield] on an
    object whose stock type is neither "Common" nor "Preferred" returns
    [None] and logs one error that names the stock type. *)
Theorem ops_yield_unknown_type (s : Stock) (price : Q) (w : world) :
  0 < price ->
  stock_type s <> "Common" ->
  stock_type s <> "Preferred" ->
  StockOps.calculate_dividend_yield (StockObject s) price w
  = (Ret None,
     logged w ERROR
       (DividendYieldFailed (symbol s)
          (ValueError ("Invalid stock type: " ++ stock_type s)))).
Proof.
  intros H Hc Hp. unfold StockOps.calculate_dividend_yield, try_except.
  rewrite (Qle_bool_positive _ H).
  unfold bind, getattr, ret, lift, raise.
  apply String.eqb_neq in Hc, Hp. now rewrite Hc, Hp.
Qed.

Lemma ops_yield_unknown_type_witness :
  0 < 100 /\ stock_type bond <> "Common" /\ stock_type bond <> "Preferred"
  /\ StockOps.calculate_dividend_yield (StockObject bond) 100 w0
     = (Ret None,
        logged w0 ERROR
          (DividendYieldFailed "BND" (ValueError "Invalid stock type: Bond"))).
Proof.
  assert (H : 0 < 100) by reflexivity.
  assert (Hc : stock_type bond <> "Common") by discriminate.
  assert (Hp : stock_type bond <> "Preferred") by discriminate.
  repeat (split; [assumption|]).
  exact (ops_yield_unknown_type bond 100 w0 H Hc Hp).
Defined.

(** X18. On a stock made by the factory, with a fixed dividend passed when
    the type is "Preferred", the method of the stock's class and
    [StockOps.calculate_dividend_yield] give the same number at every
    positive price. *)
Theorem yield_methods_agree (sym ty : string) (ld pv : Q)
    (fd : argument (option Q)) (s : Stock) (price : Q) (w : world) :
  StockFactory.create_stock sym ty ld pv fd = Ret s ->
  0 < price ->
  (ty = "Preferred" -> exists f : Q, default_none fd = Some f) ->
  exists v : Q,
    method_calculate_dividend_yield s price = Ret v
    /\ StockOps.calculate_dividend_yield (StockObject s) price w = (Ret (Some v), w).
Proof.
  unfold StockFactory.create_stock, CommonStock.new, PreferredStock.new.
  intros Hs Hp Hfd.
  destruct (String.eqb ty "Common") eqn:Ec.
  - apply String.eqb_eq in Ec. injection Hs as <-.
    exists (ld / price). split.
    + unfold method_calculate_dividend_yield. simpl.
      now rewrite common_yield_positive.
    + now rewrite ops_yield_common.
  - destruct (String.eqb ty "Preferred") eqn:Ep; [|discriminate].
    apply String.eqb_eq in Ep. injection Hs as <-.
    destruct (Hfd Ep) as [f Hf].
    exists ((f * pv) / price). split.
    + unfold method_calculate_dividend_yield. simpl.
      now rewrite (preferred_yield_positive _ f).
    + now rewrite (ops_yield_preferred _ f).
Qed.

Lemma yield_methods_agree_witness :
  StockFactory.create_stock "GIN" "Preferred" 8 100 (Given (Some (2 # 100))) = Ret gin
  /\ 0 < 100
  /\ exists v : Q,
       method_calculate_dividend_yield gin 100 = Ret v
       /\ StockOps.calculate_dividend_yield (StockObject gin) 100 w0 = (Ret (Some v), w0).
Proof.
  assert (Hs : StockFactory.create_stock "GIN" "Preferred" 8 100 (Given (Some (2 # 100)))
               = Ret gin) by reflexivity.
  assert (Hp : 0 < 100) by reflexivity.
  split; [exact Hs|]. split; [exact Hp|].
  apply (yield_methods_agree _ _ _ _ _ gin 100 w0 Hs Hp).
  intros _. exists (2 # 100). reflexivity.
Defined.

(** ** Recording trades *)

Lemma request_ok_true (q : Q) (ty : string) (p : Q) :
  request_ok (q, ty, p) = true <-> 0 < q /\ 0 < p /\ is_buy_or_sell ty = true.
Proof.
  unfold request_ok. simpl.
  rewrite andb_true_iff, negb_true_iff, orb_false_iff.
  split.
  - intros [[Hq Hp] Ht]. repeat split; [| |exact Ht].
    + apply Qnot_le_lt. intros H. apply Qle_bool_iff in H. congruence.
    + apply Qnot_le_lt. intros H. apply Qle_bool_iff in H. congruence.
  - intros (Hq & Hp & Ht).
    now rewrite (Qle_bool_positive _ Hq), (Qle_bool_positive _ Hp).
Qed.

Lemma request_ok_false (q : Q) (ty : string) (p : Q) :
  request_ok (q, ty, p) = false -> q <= 0 \/ p <= 0 \/ is_buy_or_sell ty = false.
Proof.
  unfold request_ok. simpl. intros H.
  destruct (Qle_bool q 0) eqn:Eq; [left; now apply Qle_bool_iff|].
  destruct (Qle_bool p 0) eqn:Ep; [right; left; now apply Qle_bool_iff|].
  right; right. simpl in H. exact H.
Qed.

(** The two ways a call of [record_trade] can go. *)
Lemma record_trade_cases (s : Stock) (q : Q) (ty : string) (p : Q) (w : world) :
  (request_ok (q, ty, p) = true
   /\ StockOps.record_trade s q ty p w
      = (Ret (StockOps.append_trade s (clock w (tick w), q, ty, p)),
         {| clock := clock w; tick := S (tick w);
            log := log w ++ [(INFO, TradeRecorded (symbol s) ty q p)] |}))
  \/ (request_ok (q, ty, p) = false
      /\ exists msg : string,
           StockOps.record_trade s q ty p w
           = (Ret s, logged w ERROR (RecordTradeFailed (symbol s) (ValueError msg)))).
Proof.
  destruct (request_ok (q, ty, p)) eqn:E.
  - left. split; [reflexivity|].
    apply request_ok_true in E. destruct E as (Hq & Hp & Ht).
    now apply record_trade_accepts.
  - right. split; [reflexivity|].
    apply record_trade_rejects. now apply request_ok_false.
Qed.

(** X7. A call of [record_trade] with positive quantity, positive price
    and trade type "BUY" or "SELL" puts exactly one tuple at the end of the
    ledger, stamped with the clock reading of the call; the ledger is one
    longer, the other attributes are untouched, one INFO record is logged. *)
Theorem record_trade_valid_appends (s : Stock) (q : Q) (ty : string) (p : Q)
    (w : world) :
  0 < q -> 0 < p -> ty = "BUY" \/ ty = "SELL" ->
  exists s' : Stock,
    StockOps.record_trade s q ty p w
    = (Ret s',
       {| clock := clock w; tick := S (tick w);
          log := log w ++ [(INFO, TradeRecorded (symbol s) ty q p)] |})
    /\ trades s' = trades s ++ [(clock w (tick w), q, ty, p)]
    /\ List.length (trades s') = S (List.length (trades s))
    /\ symbol s' = symbol s /\ stock_type s' = stock_type s
    /\ class_of s' = class_of s /\ last_dividend s' = last_dividend s
    /\ fixed_dividend s' = fixed_dividend s /\ par_value s' = par_value s.
Proof.
  intros Hq Hp Ht.
  assert (Hb : is_buy_or_sell ty = true) by (destruct Ht; subst ty; reflexivity).
  eexists. split; [now apply record_trade_accepts|]. simpl.
  split; [reflexivity|]. split; [|repeat split].
  rewrite length_app. simpl. lia.
Qed.

Lemma record_trade_valid_appends_witness :
  0 < 200 /\ 0 < 150 /\ ("BUY" = "BUY" \/ "BUY" = "SELL")
  /\ exists s' : Stock,
       fst (StockOps.record_trade pop 200 "BUY" 150 w0) = Ret s'
       /\ trades s' = [(0%Z, 200, "BUY", 150)].
Proof.
  assert (Hq : 0 < 200) by reflexivity.
  assert (Hp : 0 < 150) by reflexivity.
  assert (Ht : "BUY" = "BUY" \/ "BUY" = "SELL") by (left; reflexivity).
  repeat (split; [assumption|]).
  destruct (record_trade_valid_appends pop 200 "BUY" 150 w0 Hq Hp Ht)
    as (s' & Hrun & Htr & _).
  exists s'. split; [now rewrite Hrun | exact Htr].
Defined.

(** X9. The ledger is append only: whatever the arguments, the ledger after
    [record_trade] is the ledger before it followed by at most one tuple,
    and a tuple is added exactly when a clock reading is consumed. *)
Theorem record_trade_append_only (s : Stock) (q : Q) (ty : string) (p : Q)
    (w : world) :
  exists (s' : Stock) (w' : world) (added : list trade),
    StockOps.record_trade s q ty p w = (Ret s', w')
    /\ trades s' = trades s ++ added
    /\ (List.length added <= 1)%nat
    /\ tick w' = (tick w + List.length added)%nat
    /\ clock w' = clock w
    /\ symbol s' = symbol s.
Proof.
  destruct (record_trade_cases s q ty p w) as [[_ Hrun] | [_ [msg Hrun]]].
  - eexists. eexists. exists [(clock w (tick w), q, ty, p)].
    split; [exact Hrun|]. simpl. repeat split; lia.
  - eexists. eexists. exists []. split; [exact Hrun|]. simpl.
    rewrite app_nil_r. repeat split; lia.
Qed.

Lemma record_trades_any (reqs : list request) :
  forall (s : Stock) (w : world),
    exists (s' : Stock) (lg : list log_record),
      record_trades s reqs w
      = (Ret s',
         {| clock := clock w;
            tick := tick w + List.length (filter request_ok reqs);
            log := lg |})
      /\ trades s' = trades s ++ stamped (clock w) (tick w) (filter request_ok reqs)
      /\ symbol s' = symbol s.
Proof.
  induction reqs as [|[[q ty] p] rest IH]; intros s w.
  - exists s, (log w). simpl. rewrite Nat.add_0_r, app_nil_r.
    destruct w; repeat split.
  - cbn [record_trades request_quantity request_type request_price filter].
    unfold bind.
    destruct (record_trade_cases s q ty p w) as [[Hok Hrun] | [Hok [msg Hrun]]];
      rewrite Hrun, Hok.
    + set (s1 := StockOps.append_trade s _).
      set (w1 := {| clock := clock w; tick := S (tick w); log := _ |}).
      destruct (IH s1 w1) as (s' & lg & Hr & Htr & Hsym).
      exists s', lg. rewrite Hr. simpl. rewrite Nat.add_succ_r.
      repeat split; [|exact Hsym].
      rewrite Htr. simpl. now rewrite <- app_assoc.
    + destruct (IH s (logged w ERROR (RecordTradeFailed (symbol s) (ValueError msg))))
        as (s' & lg & Hr & Htr & Hsym).
      exists s', lg. rewrite Hr. simpl. repeat split; assumption.
Qed.

Lemma stamped_length (c : nat -> Z) (reqs : list request) :
  forall k : nat, List.length (stamped c k reqs) = List.length reqs.
Proof.
  induction reqs as [|r rest IH]; intros k; simpl; [reflexivity | now rewrite IH].
Qed.

(** X17. A sequence of calls of [record_trade] on one stock, valid or not,
    never raises; the ledger grows by one tuple per valid request, in the
    order of the calls and stamped with consecutive clock readings, and the
    rejected requests consume no reading and leave no tuple. *)
Theorem record_trades_grows_by_valid (s : Stock) (reqs : list request) (w : world) :
  exists (s' : Stock) (w' : world),
    record_trades s reqs w = (Ret s', w')
    /\ trades s' = trades s ++ stamped (clock w) (tick w) (filter request_ok reqs)
    /\ List.length (trades s')
       = (List.length (trades s) + List.length (filter request_ok reqs))%nat
    /\ tick w' = (tick w + List.length (filter request_ok reqs))%nat.
Proof.
  destruct (record_trades_any reqs s w) as (s' & lg & Hrun & Htr & _).
  eexists. eexists. split; [exact Hrun|]. split; [exact Htr|].
  split; [|reflexivity].
  now rewrite Htr, length_app, stamped_length.
Qed.

(** ** Volume weighted stock price *)

Lemma quantities_positive (sel : list trade) :
  sel <> [] -> Forall valid_trade sel -> 0 < Qsum (map trade_quantity sel).
Proof.
  intros Hne Hv. apply Qsum_positive.
  - destruct sel; [congruence | discriminate].
  - apply Forall_map. eapply Forall_impl; [|exact Hv].
    intros t Ht. exact (proj1 Ht).
Qed.

Lemma filter_valid (now : Z) (ledger : list trade) :
  Forall valid_trade ledger -> Forall valid_trade (filter (since now) ledger).
Proof.
  intros Hv. apply Forall_forall. intros t Ht. apply filter_In in Ht.
  exact (proj1 (Forall_forall _ _) Hv t (proj1 Ht)).
Qed.

(** X19. On a ledger of valid trades the volume weighted price is positive
    exactly when some trade of the last five minutes is stored, and 0
    otherwise: a stock counts in the index exactly when it was traded
    recently. *)
Theorem vwsp_positive_iff_recent (s : Stock) (w : world) :
  Forall valid_trade (trades s) ->
  exists v : Q,
    fst (StockOps.calculate_volume_weighted_stock_price s w) = Ret (Some v)
    /\ (0 < v <-> filter (since (clock w (tick w))) (trades s) <> [])
    /\ (filter (since (clock w (tick w))) (trades s) = [] -> v = 0).
Proof.
  intros Hv. rewrite vwsp_run. eexists. split; [reflexivity|].
  set (now := clock w (tick w)).
  destruct (vwsp_value_selection now (trades s) Hv) as [Hempty Hsome].
  split; [|exact Hempty].
  destruct (filter (since now) (trades s)) as [|t sel] eqn:E.
  - rewrite (Hempty eq_refl). split; [intros H; discriminate H | congruence].
  - split; [discriminate|]. intros _.
    assert (Hne : t :: sel <> []) by discriminate.
    rewrite (Hsome Hne). unfold weighted_average.
    assert (Hsel : Forall valid_trade (t :: sel)).
    { rewrite <- E. now apply filter_valid. }
    apply Qlt_shift_div_l; [now apply quantities_positive|].
    rewrite Qmult_0_l. apply Qsum_positive; [discriminate|].
    apply Forall_map. eapply Forall_impl; [|exact Hsel].
    intros a [Hq Hp]. rewrite <- (Qmult_0_l (trade_price a)).
    now apply Qmult_lt_compat_r.
Qed.

Lemma vwsp_positive_iff_recent_witness :
  Forall valid_trade (trades pop_traded)
  /\ exists v : Q,
       fst (StockOps.calculate_volume_weighted_stock_price pop_traded w2) = Ret (Some v)
       /\ 0 < v.
Proof.
  assert (Hv : Forall valid_trade (trades pop_traded)) by (repeat constructor).
  split; [exact Hv|].
  destruct (vwsp_positive_iff_recent pop_traded w2 Hv) as (v & Hrun & Hpos & _).
  exists v. split; [exact Hrun|]. apply Hpos. discriminate.
Defined.

(** X11. Trades older than five minutes have no influence: two ledgers with
    the same trades since [now - 5 minutes] give the same volume weighted
    price, whatever else they hold. *)
Theorem vwsp_ignores_stale_trades (s1 s2 : Stock) (w : world) :
  filter (since (clock w (tick w))) (trades s1)
  = filter (since (clock w (tick w))) (trades s2) ->
  fst (StockOps.calculate_volume_weighted_stock_price s1 w)
  = fst (StockOps.calculate_volume_weighted_stock_price s2 w).
Proof.
  intros H. rewrite !vwsp_run. simpl. unfold vwsp_value.
  now rewrite !relevant_trades_since, H.
Qed.

Lemma vwsp_ignores_stale_trades_witness :
  filter (since (clock w2 (tick w2))) (trades pop_stale)
  = filter (since (clock w2 (tick w2))) (trades pop_traded)
  /\ trades pop_stale <> trades pop_traded
  /\ fst (StockOps.calculate_volume_weighted_stock_price pop_stale w2)
     = fst (StockOps.calculate_volume_weighted_stock_price pop_traded w2).
Proof.
  assert (H : filter (since (clock w2 (tick w2))) (trades pop_stale)
              = filter (since (clock w2 (tick w2))) (trades pop_traded))
    by reflexivity.
  split; [exact H|]. split; [discriminate|].
  exact (vwsp_ignores_stale_trades pop_stale pop_traded w2 H).
Defined.

(** ** The market *)

Lemma dict_set_values_absent (d : dict Stock) (k : string) (v : Stock) :
  dict_get d k = None -> dict_values (dict_set d k v) = dict_values d ++ [v].
Proof.
  induction d as [|[k' v'] d IH]; simpl; [reflexivity|].
  destruct (String.eqb k' k) eqn:E; simpl; [discriminate|].
  intros H. f_equal. now apply IH.
Qed.

(** X13. Whatever object is handed to [add_stock], the call returns
    normally, the keys of the market stay pairwise distinct, and every
    symbol other than that of an added stock maps to what it mapped to
    before; an object that is not a stock changes nothing and is reported
    by one ERROR record. *)
Theorem add_stock_frame (m : StockMarket.t) (o : pyobj) (w : world) :
  exists (m' : StockMarket.t) (w' : world),
    StockMarket.add_stock m o w = (Ret m', w')
    /\ (forall k : string,
          (forall s : Stock, o = AStock s -> symbol s <> k) ->
          dict_get (StockMarket.stocks m') k = dict_get (StockMarket.stocks m) k)
    /\ (NoDup (dict_keys (StockMarket.stocks m)) ->
        NoDup (dict_keys (StockMarket.stocks m')))
    /\ (o = NotAStock ->
        m' = m
        /\ w' = logged w ERROR
                  (AddStockFailed (TypeError "Only Stock objects can be added."))).
Proof.
  destruct o as [s|].
  - eexists. eexists. split; [reflexivity|]. simpl. split; [|split].
    + intros k Hk. apply dict_get_set_other. intros E.
      exact (Hk s eq_refl (eq_sym E)).
    + apply dict_set_NoDup.
    + discriminate.
  - eexists. eexists. split; [reflexivity|]. repeat split; tauto.
Qed.

(** X14. Adding a stock whose symbol is not yet a key puts it at the end of
    the dictionary: the keys and the values are those before followed by the
    new symbol and the new stock, and the symbol now maps to the stock. *)
Theorem add_stock_new_symbol (m : StockMarket.t) (s : Stock) (w : world) :
  dict_get (StockMarket.stocks m) (symbol s) = None ->
  exists m' : StockMarket.t,
    StockMarket.add_stock m (AStock s) w
    = (Ret m', logged w INFO (StockAdded (symbol s)))
    /\ dict_keys (StockMarket.stocks m') = dict_keys (StockMarket.stocks m) ++ [symbol s]
    /\ dict_values (StockMarket.stocks m') = dict_values (StockMarket.stocks m) ++ [s]
    /\ dict_get (StockMarket.stocks m') (symbol s) = Some s.
Proof.
  intros H. eexists. split; [reflexivity|]. simpl.
  split; [now apply dict_set_keys_absent|].
  split; [now apply dict_set_values_absent | apply dict_get_set_same].
Qed.

Lemma add_stock_new_symbol_witness :
  dict_get (StockMarket.stocks market0) (symbol tea) = None
  /\ exists m' : StockMarket.t,
       fst (StockMarket.add_stock market0 (AStock tea) w0) = Ret m'
       /\ dict_keys (StockMarket.stocks m') = ["POP"; "GIN"; "TEA"]
       /\ dict_values (StockMarket.stocks m') = [pop; gin; tea].
Proof.
  assert (H : dict_get (StockMarket.stocks market0) (symbol tea) = None)
    by reflexivity.
  split; [exact H|].
  destruct (add_stock_new_symbol market0 tea w0 H) as (m' & Hrun & Hk & Hv & _).
  exists m'. split; [now rewrite Hrun|]. split; [exact Hk | exact Hv].
Defined.

(** X15. Adding a list of stocks one after the other never raises; a symbol
    then maps to the last stock of the list that carries it, and to what it
    mapped to in the market before when the list has none; the keys stay
    pairwise distinct. *)
Theorem add_stocks_lookup (ss : list Stock) :
  forall (m : StockMarket.t) (w : world),
    exists (m' : StockMarket.t) (w' : world),
      add_stocks m (map AStock ss) w = (Ret m', w')
      /\ (forall k : string,
            dict_get (StockMarket.stocks m') k
            = match last_with_symbol k ss with
              | Some s => Some s
              | None => dict_get (StockMarket.stocks m) k
              end)
      /\ (NoDup (dict_keys (StockMarket.stocks m)) ->
          NoDup (dict_keys (StockMarket.stocks m'))).
Proof.
  induction ss as [|s rest IH]; intros m w.
  - exists m, w. repeat split; tauto.
  - cbn [map add_stocks]. unfold bind.
    change (StockMarket.add_stock m (AStock s) w)
      with (Ret {| StockMarket.stocks := dict_set (StockMarket.stocks m) (symbol s) s |},
            logged w INFO (StockAdded (symbol s))).
    cbv iota.
    destruct (IH {| StockMarket.stocks := dict_set (StockMarket.stocks m) (symbol s) s |}
                 (logged w INFO (StockAdded (symbol s))))
      as (m' & w' & Hrun & Hget & Hnd).
    exists m', w'. split; [exact Hrun|]. split.
    + intros k. rewrite Hget. simpl.
      destruct (last_with_symbol k rest); [reflexivity|].
      destruct (String.eqb (symbol s) k) eqn:E.
      * apply String.eqb_eq in E. subst k. apply dict_get_set_same.
      * apply String.eqb_neq in E. apply dict_get_set_other. congruence.
    + intros H. apply Hnd. simpl. now apply dict_set_NoDup.
Qed.

(** Three of the sample stocks of [main], added to the empty market. *)
Example add_stocks_sample :
  exists m' : StockMarket.t,
    fst (add_stocks StockMarket.init (map AStock [tea; pop; gin]) w0) = Ret m'
    /\ dict_keys (StockMarket.stocks m') = ["TEA"; "POP"; "GIN"].
Proof.
  eexists. split; reflexivity.
Qed.

Lemma vwsp_values_untraded (c : nat -> Z) (ss : list Stock) :
  forall k : nat,
    Forall (fun s => trades s = []) ss ->
    filter (Qlt_bool 0) (vwsp_values c k ss) = [].
Proof.
  induction ss as [|s rest IH]; intros k H; [reflexivity|].
  inversion H as [|s' rest' Hs Hrest]; subst. simpl.
  unfold vwsp_value. rewrite Hs. simpl. now apply IH.
Qed.

Lemma get_all_share_index_run (pow : Q -> Q -> Q) (m : StockMarket.t) (w : world) :
  fst (StockMarket.get_all_share_index pow m w)
  = Ret (Some (index_of_prices pow
                 (vwsp_values (clock w) (tick w) (dict_values (StockMarket.stocks m))))).
Proof.
  unfold StockMarket.get_all_share_index, try_except.
  unfold bind at 1. rewrite gather_vwsp_run, valid_prices_positive.
  unfold index_of_prices, geometric_mean.
  destruct (filter (Qlt_bool 0) _) as [|q kept]; [reflexivity|].
  unfold bind, lift, ret. now rewrite length_nonzero.
Qed.

(** X16. In a market where no stock has a trade, the empty market included,
    the index is 0, returned normally. *)
Theorem all_share_index_untraded (pow : Q -> Q -> Q) (m : StockMarket.t)
    (w : world) :
  Forall (fun s => trades s = []) (dict_values (StockMarket.stocks m)) ->
  fst (StockMarket.get_all_share_index pow m w) = Ret (Some 0).
Proof.
  intros H. rewrite get_all_share_index_run. unfold index_of_prices.
  now rewrite vwsp_values_untraded.
Qed.

Lemma all_share_index_untraded_witness :
  Forall (fun s => trades s = []) (dict_values (StockMarket.stocks market0))
  /\ fst (StockMarket.get_all_share_index (fun x _ => x) market0 w0) = Ret (Some 0).
Proof.
  assert (H : Forall (fun s => trades s = []) (dict_values (StockMarket.stocks market0)))
    by (repeat constructor).
  split; [exact H|].
  exact (all_share_index_untraded (fun x _ => x) market0 w0 H).
Defined.

Lemma vwsp_values_app (c : nat -> Z) (ss : list Stock) (s : Stock) :
  forall k : nat,
    vwsp_values c k (ss ++ [s])
    = vwsp_values c k ss ++ [vwsp_value (c (k + List.length ss)%nat) (trades s)].
Proof.
  induction ss as [|s0 rest IH]; intros k; simpl.
  - now rewrite Nat.add_0_r.
  - now rewrite IH, Nat.add_succ_r.
Qed.

(** X20. Listing a stock that has no trade under a symbol that is new does
    not move the index: the index of the market after [add_stock] equals the
    index of the market before it, from the same clock. *)
Theorem index_unmoved_by_untraded_listing (pow : Q -> Q -> Q) (m : StockMarket.t)
    (s : Stock) (w0' w : world) :
  dict_get (StockMarket.stocks m) (symbol s) = None ->
  trades s = [] ->
  exists m' : StockMarket.t,
    fst (StockMarket.add_stock m (AStock s) w0') = Ret m'
    /\ fst (StockMarket.get_all_share_index pow m' w)
       = fst (StockMarket.get_all_share_index pow m w).
Proof.
  intros Hnew Hnil. eexists. split; [reflexivity|].
  rewrite !get_all_share_index_run. simpl.
  rewrite (dict_set_values_absent _ _ _ Hnew), vwsp_values_app.
  unfold index_of_prices. rewrite filter_app.
  unfold vwsp_value. rewrite Hnil. simpl. now rewrite app_nil_r.
Qed.

Lemma index_unmoved_by_untraded_listing_witness :
  dict_get (StockMarket.stocks market_ab) (symbol gin) = None
  /\ trades gin = []
  /\ exists m' : StockMarket.t,
       fst (StockMarket.add_stock market_ab (AStock gin) w0) = Ret m'
       /\ fst (StockMarket.get_all_share_index (fun x _ => x) m' w2)
          = fst (StockMarket.get_all_share_index (fun x _ => x) market_ab w2).
Proof.
  assert (Hnew : dict_get (StockMarket.stocks market_ab) (symbol gin) = None)
    by reflexivity.
  assert (Hnil : trades gin = []) by reflexivity.
  split; [exact Hnew|]. split; [exact Hnil|].
  exact (index_unmoved_by_untraded_listing (fun x _ => x) market_ab gin w0 w2 Hnew Hnil).
Defined.

(** ** A Preferred stock without fixed dividend *)

(** X3. At a positive price, a stock whose fixed dividend is [None] makes
    the method of [PreferredStock] raise [TypeError] to its caller, while
    [StockOps.calculate_dividend_yield] on a "Preferred" object logs its
    "Invalid stock type" error and returns [None]. *)
Theorem preferred_yield_without_fixed_dividend (s : Stock) (price : Q) (w : world) :
  0 < price ->
  fixed_dividend s = None ->
  (exists msg : string,
     PreferredStock.calculate_dividend_yield s price = Raise (TypeError msg))
  /\ (class_of s = PreferredStockClass ->
      exists msg : string,
        method_calculate_dividend_yield s price = Raise (TypeError msg))
  /\ (stock_type s = "Preferred" ->
      StockOps.calculate_dividend_yield (StockObject s) price w
      = (Ret None,
         logged w ERROR
           (DividendYieldFailed (symbol s) (ValueError "Invalid stock type: Preferred")))).
Proof.
  intros Hp Hf.
  destruct (preferred_without_fixed_dividend_yield s price w Hp Hf) as [Hm Ho].
  split; [exact Hm|]. split; [|exact Ho].
  intros Hc. unfold method_calculate_dividend_yield. rewrite Hc. exact Hm.
Qed.

Lemma preferred_yield_without_fixed_dividend_witness :
  0 < 100 /\ fixed_dividend gin_bare = None
  /\ (exists msg : string,
        method_calculate_dividend_yield gin_bare 100 = Raise (TypeError msg))
  /\ fst (StockOps.calculate_dividend_yield (StockObject gin_bare) 100 w0) = Ret None.
Proof.
  assert (Hp : 0 < 100) by reflexivity.
  assert (Hf : fixed_dividend gin_bare = None) by reflexivity.
  split; [exact Hp|]. split; [exact Hf|].
  destruct (preferred_yield_without_fixed_dividend gin_bare 100 w0 Hp Hf)
    as (_ & Hm & Ho).
  split; [exact (Hm eq_refl)|]. now rewrite (Ho eq_refl).
Defined.

(** * Python's own numbers *)

(** ** Recording trades *)

Lemma pynum_record_trade_accepts (s : PyNum.Stock) (q : PyNum.num) (ty : string)
    (p : PyNum.num) (w : PyNum.world) :
  PyNum.le_zero q = false -> PyNum.le_zero p = false -> is_buy_or_sell ty = true ->
  PyNum.StockOps.record_trade s q ty p w
  = (Ret (PyNum.StockOps.append_trade s (PyNum.clock w (PyNum.tick w), q, ty, p)),
     {| PyNum.clock := PyNum.clock w; PyNum.tick := S (PyNum.tick w);
        PyNum.log := PyNum.log w
                     ++ [(INFO, PyNum.TradeRecorded (PyNum.symbol s) ty q p)] |}).
Proof.
  intros Hq Hp Ht. unfold PyNum.StockOps.record_trade, PyNum.try_except.
  rewrite Hq, Hp, Ht. reflexivity.
Qed.

Lemma pynum_record_trade_rejects (s : PyNum.Stock) (q : PyNum.num) (ty : string)
    (p : PyNum.num) (w : PyNum.world) :
  PyNum.le_zero q = true \/ PyNum.le_zero p = true \/ is_buy_or_sell ty = false ->
  exists w' : PyNum.world, PyNum.StockOps.record_trade s q ty p w = (Ret s, w').
Proof.
  intros H. unfold PyNum.StockOps.record_trade, PyNum.try_except.
  destruct (PyNum.le_zero q || PyNum.le_zero p) eqn:E.
  - eexists. reflexivity.
  - destruct (is_buy_or_sell ty) eqn:Et.
    + exfalso. apply orb_false_iff in E. destruct E as [Eq Ep].
      destruct H as [H | [H | H]]; congruence.
    + eexists. reflexivity.
Qed.

(** X8. Whatever its arguments, a NaN included, [record_trade] returns
    normally, and every tuple of the ledger has passed its guard: if the
    stored quantities and prices are not [<= 0] and the stored types are
    "BUY" or "SELL" before the call, they are after it. The guard is not
    positivity: a NaN quantity passes it and is stored. *)
Theorem record_trade_keeps_guard (s : PyNum.Stock) (q : PyNum.num) (ty : string)
    (p : PyNum.num) (w : PyNum.world) :
  Forall PyNum.passed_guard (PyNum.trades s) ->
  exists (s' : PyNum.Stock) (w' : PyNum.world),
    PyNum.StockOps.record_trade s q ty p w = (Ret s', w')
    /\ Forall PyNum.passed_guard (PyNum.trades s').
Proof.
  intros Hv.
  destruct (PyNum.le_zero q) eqn:Eq.
  { destruct (pynum_record_trade_rejects s q ty p w) as [w' Hr]; [now left|].
    exists s, w'. now split. }
  destruct (PyNum.le_zero p) eqn:Ep.
  { destruct (pynum_record_trade_rejects s q ty p w) as [w' Hr]; [now right; left|].
    exists s, w'. now split. }
  destruct (is_buy_or_sell ty) eqn:Et.
  - eexists. eexists. split; [now apply pynum_record_trade_accepts|]. simpl.
    apply Forall_app. split; [exact Hv|]. constructor; [|constructor].
    repeat split; assumption.
  - destruct (pynum_record_trade_rejects s q ty p w) as [w' Hr]; [now right; right|].
    exists s, w'. now split.
Qed.

Lemma record_trade_keeps_guard_witness :
  Forall PyNum.passed_guard (PyNum.trades PyNum.pop)
  /\ exists (s' : PyNum.Stock) (w' : PyNum.world),
       PyNum.StockOps.record_trade PyNum.pop (PyNum.Float PrimFloat.nan) "BUY"
         (PyNum.Int 10) PyNum.w0 = (Ret s', w')
       /\ Forall PyNum.passed_guard (PyNum.trades s')
       /\ PyNum.trades s'
          = [(0%Z, PyNum.Float PrimFloat.nan, "BUY", PyNum.Int 10)].
Proof.
  assert (Hv : Forall PyNum.passed_guard (PyNum.trades PyNum.pop)) by constructor.
  split; [exact Hv|].
  destruct (record_trade_keeps_guard PyNum.pop (PyNum.Float PrimFloat.nan) "BUY"
              (PyNum.Int 10) PyNum.w0 Hv) as (s' & w' & Hrun & Hg).
  exists s', w'. split; [exact Hrun|]. split; [exact Hg|].
  assert (Hs : Ret s' = fst (PyNum.StockOps.record_trade PyNum.pop
                               (PyNum.Float PrimFloat.nan) "BUY" (PyNum.Int 10) PyNum.w0))
    by now rewrite Hrun.
  vm_compute in Hs. injection Hs as ->. reflexivity.
Defined.

(** ** Appending trades, then querying *)

Lemma pynum_record_trades_run (reqs : list (Z * string * Z)) :
  forall (s : PyNum.Stock) (w : PyNum.world),
    Forall PyNum.valid_int_request reqs ->
    exists (s1 : PyNum.Stock) (lg : list (level * PyNum.message)),
      PyNum.record_trades s (map PyNum.of_ints reqs) w
      = (Ret s1,
         {| PyNum.clock := PyNum.clock w;
            PyNum.tick := PyNum.tick w + List.length reqs;
            PyNum.log := lg |})
      /\ PyNum.symbol s1 = PyNum.symbol s
      /\ PyNum.trades s1
         = PyNum.trades s ++ PyNum.stamped (PyNum.clock w) (PyNum.tick w) reqs.
Proof.
  induction reqs as [|[[q ty] p] rest IH]; intros s w Hv.
  - exists s, (PyNum.log w). simpl. rewrite Nat.add_0_r, app_nil_r.
    destruct w; repeat split.
  - inversion Hv as [|r rest' Hr Hrest]; subst.
    destruct Hr as (Hq & Hp & Ht).
    cbn [map PyNum.of_ints PyNum.record_trades]. unfold PyNum.bind.
    rewrite (pynum_record_trade_accepts s (PyNum.Int q) ty (PyNum.Int p) w).
    + set (s' := PyNum.StockOps.append_trade s _).
      set (w' := {| PyNum.clock := PyNum.clock w; PyNum.tick := S (PyNum.tick w);
                    PyNum.log := _ |}).
      destruct (IH s' w' Hrest) as (s1 & lg & Hrun & Hsym & Htr).
      exists s1, lg. rewrite Hrun. simpl. rewrite Nat.add_succ_r.
      repeat split; [exact Hsym|].
      rewrite Htr. simpl. now rewrite <- app_assoc.
    + simpl. apply Z.leb_gt. exact Hq.
    + simpl. apply Z.leb_gt. exact Hp.
    + exact Ht.
Qed.

Lemma pynum_relevant_stamped (now : Z) (c : nat -> Z) (reqs : list (Z * string * Z)) :
  forall k : nat,
    (forall i : nat, (i < List.length reqs)%nat -> (now - five_minutes <= c (k + i)%nat)%Z) ->
    PyNum.relevant_trades (now - five_minutes) (PyNum.stamped c k reqs)
    = map (fun r => (PyNum.Int (PyNum.int_quantity r),
                     PyNum.Int (let '(_, _, p) := r in p))) reqs.
Proof.
  induction reqs as [|[[q ty] p] rest IH]; intros k H; [reflexivity|].
  unfold PyNum.relevant_trades in *. simpl.
  assert (H0 : (now - five_minutes <= c k)%Z).
  { specialize (H 0%nat). rewrite Nat.add_0_r in H. apply H. simpl. lia. }
  rewrite (proj2 (Z.leb_le _ _) H0). simpl. f_equal. apply IH.
  intros i Hi. replace (S k + i)%nat with (k + S i)%nat by lia.
  apply H. simpl. lia.
Qed.

(** On ints the sums are exact. *)
Lemma pynum_sum_amounts (reqs : list (Z * string * Z)) :
  forall a : Z,
    PyNum.sum_from (PyNum.Int a)
      (map (fun qp : PyNum.num * PyNum.num => PyNum.mul (fst qp) (snd qp))
           (map (fun r => (PyNum.Int (PyNum.int_quantity r),
                           PyNum.Int (let '(_, _, p) := r in p))) reqs))
    = Ret (PyNum.Int (a + PyNum.Zsum (map PyNum.int_amount reqs))).
Proof.
  induction reqs as [|[[q ty] p] rest IH]; intros a; simpl.
  - now rewrite Z.add_0_r.
  - rewrite IH. now rewrite Z.add_assoc.
Qed.

Lemma pynum_sum_quantities (reqs : list (Z * string * Z)) :
  forall a : Z,
    PyNum.sum_from (PyNum.Int a)
      (map (fun qp : PyNum.num * PyNum.num => Ret (fst qp))
           (map (fun r => (PyNum.Int (PyNum.int_quantity r),
                           PyNum.Int (let '(_, _, p) := r in p))) reqs))
    = Ret (PyNum.Int (a + PyNum.Zsum (map PyNum.int_quantity reqs))).
Proof.
  induction reqs as [|[[q ty] p] rest IH]; intros a; simpl.
  - now rewrite Z.add_0_r.
  - rewrite IH. now rewrite Z.add_assoc.
Qed.

Lemma Zsum_quantities_nonneg (reqs : list (Z * string * Z)) :
  Forall PyNum.valid_int_request reqs ->
  (0 <= PyNum.Zsum (map PyNum.int_quantity reqs))%Z.
Proof.
  induction reqs as [|[[q ty] p] rest IH]; intros Hv; simpl; [lia|].
  inversion Hv as [|r rest' Hr Hrest]; subst.
  destruct Hr as (Hq & _). specialize (IH Hrest). lia.
Qed.

Lemma Zsum_quantities_positive (reqs : list (Z * string * Z)) :
  reqs <> [] -> Forall PyNum.valid_int_request reqs ->
  (0 < PyNum.Zsum (map PyNum.int_quantity reqs))%Z.
Proof.
  intros Hne Hv. destruct reqs as [|[[q ty] p] rest]; [congruence|].
  inversion Hv as [|r rest' Hr Hrest]; subst.
  destruct Hr as (Hq & _).
  pose proof (Zsum_quantities_nonneg rest Hrest). simpl. lia.
Qed.

Lemma Zsum_permutation (xs ys : list Z) :
  Permutation xs ys -> PyNum.Zsum xs = PyNum.Zsum ys.
Proof.
  induction 1 as [| x xs ys _ IH | x y xs | xs ys zs _ IH1 _ IH2]; simpl; lia.
Qed.

(** The price of a ledger of int trades that all lie in the window. *)
Lemma pynum_vwsp_ints (s : PyNum.Stock) (w : PyNum.world) (c : nat -> Z) (k : nat)
    (reqs : list (Z * string * Z)) :
  reqs <> [] ->
  Forall PyNum.valid_int_request reqs ->
  PyNum.trades s = PyNum.stamped c k reqs ->
  (forall i : nat,
     (i < List.length reqs)%nat ->
     (PyNum.clock w (PyNum.tick w) - five_minutes <= c (k + i)%nat)%Z) ->
  exists w' : PyNum.world,
    PyNum.StockOps.calculate_volume_weighted_stock_price s w
    = (Ret (PyNum.int_quotient (PyNum.Zsum (map PyNum.int_amount reqs))
                               (PyNum.Zsum (map PyNum.int_quantity reqs))),
       w').
Proof.
  intros Hne Hv Htr Hwin.
  pose proof (Zsum_quantities_positive reqs Hne Hv) as Hpos.
  unfold PyNum.StockOps.calculate_volume_weighted_stock_price, PyNum.try_except.
  unfold PyNum.bind at 1. unfold PyNum.datetime_now.
  rewrite Htr, (pynum_relevant_stamped _ c reqs k Hwin).
  destruct reqs as [|r rest]; [congruence|].
  change (map ?f (r :: rest)) with (f r :: map f rest) at 1.
  cbv iota.
  unfold PyNum.bind at 1, PyNum.lift at 1, PyNum.py_sum.
  rewrite pynum_sum_amounts.
  unfold PyNum.bind at 1, PyNum.lift at 1.
  rewrite pynum_sum_quantities. rewrite !Z.add_0_l.
  set (A := PyNum.Zsum (map PyNum.int_amount (r :: rest))) in *.
  set (B := PyNum.Zsum (map PyNum.int_quantity (r :: rest))) in *.
  assert (Hb : (B =? 0)%Z = false) by (apply Z.eqb_neq; lia).
  cbn [PyNum.truthy]. rewrite Hb. cbn [negb].
  unfold PyNum.bind, PyNum.lift, PyNum.true_div, PyNum.int_quotient.
  rewrite Hb.
  destruct (PyNum.int_true_div A B) as [f|e]; simpl; eexists; reflexivity.
Qed.

Lemma pynum_record_then_query_ints (s : PyNum.Stock) (reqs : list (Z * string * Z))
    (w : PyNum.world) :
  PyNum.trades s = [] -> reqs <> [] ->
  Forall PyNum.valid_int_request reqs ->
  PyNum.readings_in_window w (List.length reqs) ->
  exists w1 : PyNum.world,
    PyNum.record_then_query s (map PyNum.of_ints reqs) w
    = (Ret (PyNum.int_quotient (PyNum.Zsum (map PyNum.int_amount reqs))
                               (PyNum.Zsum (map PyNum.int_quantity reqs))),
       w1).
Proof.
  intros Hnil Hne Hv Hwin.
  destruct (pynum_record_trades_run reqs s w Hv) as (s1 & lg & Hrun & _ & Htr).
  unfold PyNum.record_then_query, PyNum.bind. rewrite Hrun.
  rewrite Hnil in Htr. simpl in Htr.
  apply (pynum_vwsp_ints s1 _ (PyNum.clock w) (PyNum.tick w) reqs Hne Hv Htr).
  intros i Hi. simpl. exact (proj1 (Hwin i Hi)).
Qed.

(** C9, as the code has it. A fresh stock and a non-empty batch of valid
    trades whose quantities and prices are ints, recorded in either of two
    orders at clock readings that lie in the five minute window of the query
    that follows: both runs return normally with the same result, the double
    nearest to the exact sum of quantity times price over the exact sum of
    quantity ([None] when that quotient is too large for a double). *)
Theorem vwsp_int_trades_any_order (s : PyNum.Stock)
    (reqs reqs' : list (Z * string * Z)) (w w' : PyNum.world) :
  PyNum.trades s = [] ->
  reqs <> [] ->
  Forall PyNum.valid_int_request reqs ->
  Permutation reqs reqs' ->
  PyNum.readings_in_window w (List.length reqs) ->
  PyNum.readings_in_window w' (List.length reqs') ->
  exists (r : option PyNum.num) (w1 w1' : PyNum.world),
    PyNum.record_then_query s (map PyNum.of_ints reqs) w = (Ret r, w1)
    /\ PyNum.record_then_query s (map PyNum.of_ints reqs') w' = (Ret r, w1')
    /\ r = PyNum.int_quotient (PyNum.Zsum (map PyNum.int_amount reqs))
                              (PyNum.Zsum (map PyNum.int_quantity reqs)).
Proof.
  intros Hnil Hne Hv Hperm Hwin Hwin'.
  assert (Hne' : reqs' <> []).
  { intros E. subst reqs'. apply Permutation_sym, Permutation_nil in Hperm.
    contradiction. }
  assert (Hv' : Forall PyNum.valid_int_request reqs').
  { apply Forall_forall. intros x Hx.
    apply (proj1 (Forall_forall _ _) Hv).
    now apply (Permutation_in _ (Permutation_sym Hperm)). }
  destruct (pynum_record_then_query_ints s reqs w Hnil Hne Hv Hwin) as [w1 Hrun].
  destruct (pynum_record_then_query_ints s reqs' w' Hnil Hne' Hv' Hwin') as [w1' Hrun'].
  rewrite <- (Zsum_permutation _ _ (Permutation_map PyNum.int_amount Hperm)) in Hrun'.
  rewrite <- (Zsum_permutation _ _ (Permutation_map PyNum.int_quantity Hperm)) in Hrun'.
  eexists. exists w1, w1'. split; [exact Hrun|]. split; [exact Hrun' | reflexivity].
Qed.

Lemma vwsp_int_trades_any_order_witness :
  let reqs := [(200, "BUY", 150); (50, "SELL", 125)]%Z in
  let reqs' := [(50, "SELL", 125); (200, "BUY", 150)]%Z in
  PyNum.trades PyNum.pop = [] /\ reqs <> []
  /\ Forall PyNum.valid_int_request reqs /\ Permutation reqs reqs'
  /\ PyNum.readings_in_window PyNum.w0 (List.length reqs)
  /\ exists (r : option PyNum.num) (w1 w1' : PyNum.world),
       PyNum.record_then_query PyNum.pop (map PyNum.of_ints reqs) PyNum.w0 = (Ret r, w1)
       /\ PyNum.record_then_query PyNum.pop (map PyNum.of_ints reqs') PyNum.w0
          = (Ret r, w1')
       /\ r = Some (PyNum.Float (PyNum.nearest 145)).
Proof.
  intros reqs reqs'.
  assert (Hnil : PyNum.trades PyNum.pop = []) by reflexivity.
  assert (Hne : reqs <> []) by discriminate.
  assert (Hv : Forall PyNum.valid_int_request reqs).
  { repeat constructor. }
  assert (Hperm : Permutation reqs reqs') by apply perm_swap.
  assert (Hwin : PyNum.readings_in_window PyNum.w0 2).
  { intros i Hi. destruct i as [|[|i]]; [vm_compute; split; discriminate .. | lia]. }
  repeat (split; [assumption|]).
  destruct (vwsp_int_trades_any_order PyNum.pop reqs reqs' PyNum.w0 PyNum.w0
              Hnil Hne Hv Hperm Hwin Hwin)
    as (r & w1 & w1' & Hrun & Hrun' & Hval).
  exists r, w1, w1'. split; [exact Hrun|]. split; [exact Hrun'|].
  rewrite Hval. vm_compute. reflexivity.
Defined.

(** C9 as stated fails. Three valid trades of one share at the float prices
    written 0.1, 0.2 and 0.3, recorded on a fresh stock within the window:
    in this order the price is 0.20000000000000004, in the reverse order it
    is 0.19999999999999998. *)
Lemma vwsp_append_order_counterexample :
  Forall PyNum.valid_request PyNum.tenths
  /\ Permutation PyNum.tenths (rev PyNum.tenths)
  /\ PyNum.readings_in_window PyNum.w0 3
  /\ fst (PyNum.record_then_query PyNum.pop PyNum.tenths PyNum.w0)
     = Ret (Some (PyNum.Float PyNum.forward_price))
  /\ fst (PyNum.record_then_query PyNum.pop (rev PyNum.tenths) PyNum.w0)
     = Ret (Some (PyNum.Float PyNum.reverse_price))
  /\ PrimFloat.ltb PyNum.reverse_price PyNum.forward_price = true
  /\ PyNum.forward_price <> PyNum.reverse_price.
Proof.
  split; [repeat constructor|].
  split; [apply Permutation_rev|].
  split.
  { intros i Hi. destruct i as [|[|[|i]]]; [vm_compute; split; discriminate .. | lia]. }
  split; [vm_compute; reflexivity|].
  split; [vm_compute; reflexivity|].
  split; [vm_compute; reflexivity|].
  intros H.
  assert (Hl : PrimFloat.ltb PyNum.reverse_price PyNum.forward_price = true)
    by (vm_compute; reflexivity).
  rewrite H in Hl. vm_compute in Hl. discriminate Hl.
Qed.

(** ** All share index *)

(** C3, the code at a failing input. A market of 155 stocks, each with one
    trade at 100 within the last five minutes: every volume weighted price
    is the double 100.0 and all 155 are kept, but their product, taken left
    to right in doubles, is not 10^310: it is finite after 154 factors and
    +infinity after the 155th, and +infinity is what the index raises to
    the power 1/155. *)
Theorem all_share_index_overflow
    (pow : PrimFloat.float -> PrimFloat.float -> PrimFloat.float) :
  NoDup (dict_keys (PyNum.StockMarket.stocks PyNum.market_155))
  /\ fst (PyNum.gather
            (map PyNum.StockOps.calculate_volume_weighted_stock_price
                 (dict_values (PyNum.StockMarket.stocks PyNum.market_155)))
            PyNum.w0)
     = Ret (repeat (Some (PyNum.Float PyNum.hundred)) 155)
  /\ (exists p : PrimFloat.float,
        PyNum.py_prod (repeat (PyNum.Float PyNum.hundred) 154) = Ret (PyNum.Float p)
        /\ PrimFloat.is_finite p = true)
  /\ PyNum.py_prod (repeat (PyNum.Float PyNum.hundred) 155)
     = Ret (PyNum.Float PrimFloat.infinity)
  /\ fst (PyNum.StockMarket.get_all_share_index pow PyNum.market_155 PyNum.w0)
     = Ret (Some (PyNum.Float (pow PrimFloat.infinity PyNum.root_155))).
Proof.
  split.
  { assert (H : nodup string_dec (dict_keys (PyNum.StockMarket.stocks PyNum.market_155))
                = dict_keys (PyNum.StockMarket.stocks PyNum.market_155))
      by (vm_compute; reflexivity).
    rewrite <- H. apply NoDup_nodup. }
  split; [vm_compute; reflexivity|].
  split; [eexists; split; vm_compute; reflexivity|].
  split; vm_compute; reflexivity.
Qed.






